(** * prism-neo: a shallow embedding of the Koishi plugin

    The plugin is a chat-command layer over a remote access-and-billing API.
    This development embeds [src/service.ts] (URL construction and the remote
    calls) and [src/index.ts] (the command wrapper, the formatting helpers, the
    identity resolution and the command handlers) and proves properties of the
    two-step logout confirmation, of the billing preview, of the wallet
    presenter and of the error wrapper.

    Conventions of the embedding:
    - a JavaScript string is a [string] holding its UTF-8 bytes;
    - a JavaScript [number] that the API uses for amounts, counts and epoch
      milliseconds is an integer of [Z] (JSON carries no NaN);
    - [undefined]/[null] is [None]; truthiness tests are written out
      ([truthy_str], [truthy_num]);
    - a date-valued field (an ISO string or a [Date]) is represented by the
      instant it denotes, in epoch milliseconds; what depends on the host's
      time zone and locale is a field of [Host];
    - the process-wide [kv] map, the remote calls and thrown exceptions are
      threaded by the monad [M]; an [await] of a rejected promise throws;
    - one invocation of a handler is one run of its computation: what other
      invocations do while it awaits is not modelled, and the statements
      about several invocations run them one after the other;
    - [console.error] is not modelled; of the commands registered by
      [apply], those that take a target user are embedded. *)

From Stdlib Require Import ZArith List String Ascii Lia Bool Sorted.
From stdpp Require Import base option strings pretty list gmap.

Open Scope string_scope.
Open Scope Z_scope.

(** ** JavaScript values *)

(** [string | undefined] *)
Abbreviation JsStr := (option string).

Definition truthy_str (s : JsStr) : bool :=
  match s with
  | Some s => negb (String.eqb s "")
  | None => false
  end.

(** [number | undefined] *)
Definition truthy_num (n : option Z) : bool :=
  match n with
  | Some n => negb (n =? 0)
  | None => false
  end.

(** Template-literal interpolation of a number and of a possibly undefined
    string. *)
Definition show_num (n : Z) : string := pretty n.

Definition show_str (s : JsStr) : string :=
  match s with
  | Some s => s
  | None => "undefined"
  end.

Definition LF : string := String (ascii_of_nat 10) "".

Definition DQUOTE : string := String (ascii_of_nat 34) "".

(** [Array.prototype.push] and [Array.prototype.join] *)
Definition push {A} (message : list A) (x : A) : list A := message ++ [x].

Fixpoint join (sep : string) (l : list string) : string :=
  match l with
  | [] => ""
  | [x] => x
  | x :: l' => x +:+ sep +:+ join sep l'
  end.

(** [String.prototype.split] with a one-character separator. *)
Fixpoint split_go (sep : ascii) (cur : string) (s : string) : list string :=
  match s with
  | "" => [String.rev cur]
  | String a s' =>
      if Ascii.eqb a sep then String.rev cur :: split_go sep "" s'
      else split_go sep (String a cur) s'
  end.

Definition split (sep : ascii) (s : string) : list string := split_go sep "" s.

(** [String.prototype.padStart(2, '0')] *)
Definition padStart2 (s : string) : string :=
  match String.length s with
  | O => "00"
  | S O => "0" +:+ s
  | _ => s
  end.

(** *** White space, as [trimStart] and [trimEnd] see it

    ECMAScript trims WhiteSpace and LineTerminator code points: U+0009 to
    U+000D, U+0020, U+00A0, U+1680, U+2000 to U+200A, U+2028, U+2029, U+202F,
    U+205F, U+3000 and U+FEFF.  On UTF-8 bytes these are one, two or three
    bytes long. *)

Definition ws1 (a : ascii) : bool :=
  let n := N_of_ascii a in
  ((9 <=? n)%N && (n <=? 13)%N) || (n =? 32)%N.

Definition ws2 (a b : ascii) : bool :=
  (N_of_ascii a =? 194)%N && (N_of_ascii b =? 160)%N.

Definition ws3 (a b c : ascii) : bool :=
  let x := N_of_ascii a in
  let y := N_of_ascii b in
  let z := N_of_ascii c in
  ((x =? 225) && (y =? 154) && (z =? 128))%N
  || ((x =? 226)%N && (y =? 128)%N
      && (((128 <=? z) && (z <=? 138))%N
          || (z =? 168)%N || (z =? 169)%N || (z =? 175)%N))
  || ((x =? 226) && (y =? 129) && (z =? 159))%N
  || ((x =? 227) && (y =? 128) && (z =? 128))%N
  || ((x =? 239) && (y =? 187) && (z =? 191))%N.

(** Drop leading white space.  With [backwards] the string is read from its
    end, so the bytes of a code point arrive last byte first. *)
Fixpoint dropWhiteSpace (backwards : bool) (s : string) : string :=
  match s with
  | "" => ""
  | String a s1 =>
      if ws1 a then dropWhiteSpace backwards s1
      else
        match s1 with
        | String b s2 =>
            if (if backwards then ws2 b a else ws2 a b)
            then dropWhiteSpace backwards s2
            else
              match s2 with
              | String c s3 =>
                  if (if backwards then ws3 c b a else ws3 a b c)
                  then dropWhiteSpace backwards s3
                  else s
              | "" => s
              end
        | "" => s
        end
  end.

Definition trimStart (s : string) : string := dropWhiteSpace false s.

Definition trimEnd (s : string) : string :=
  String.rev (dropWhiteSpace true (String.rev s)).

(** [replace(/^\/+/, "")]: drop the leading run of slashes. *)
Fixpoint dropSlashes (s : string) : string :=
  match s with
  | String "/" s' => dropSlashes s'
  | _ => s
  end.

(** [replace(/\/+$/, "")]: drop the trailing run of slashes. *)
Definition dropTrailingSlashes (s : string) : string :=
  String.rev (dropSlashes (String.rev s)).

(** ** service.ts: URL construction *)

Definition makeUrl (baseUrl endpoint : string) : string :=
  dropTrailingSlashes (trimEnd baseUrl) +:+ "/api/"
  +:+ dropSlashes (trimStart endpoint).

(** ** The host: what [Date] and the chat framework provide

    Calendar fields are those of the host's local time zone;
    [toLocaleTimeString] is the ['en-GB'] rendering with two-digit hour, minute
    and second on a 24-hour clock, [toLocaleDateString] the default-locale
    date, and [quote] the string that [h('quote', { id })] becomes when it is
    concatenated with a string. *)

Abbreviation JsDate := Z.

Record Host := {
  getFullYear : JsDate -> Z;
  getMonth : JsDate -> Z;
  getDate : JsDate -> Z;
  getHours : JsDate -> Z;
  getMinutes : JsDate -> Z;
  getSeconds : JsDate -> Z;
  toLocaleTimeString : JsDate -> string;
  toLocaleDateString : JsDate -> string;
  quote : string -> string
}.

(** ** model.ts: the shapes of the remote API's answers *)

Module LogoutSession.
(** [closedAt] is absent while the session is open. *)
Record t := {
  createdAt : JsDate;
  closedAt : option JsDate;
  costOverwrite : option Z;
  finalCost : Z
}.
End LogoutSession.

Module LogoutBilling.
Record t := { totalCost : Z }.
End LogoutBilling.

Module LogoutResponse.
Record t := { session : LogoutSession.t; billing : LogoutBilling.t }.
End LogoutResponse.

Module BillingSegment.
Record t := {
  ruleId : Z;
  ruleName : string;
  startTime : JsDate;
  endTime : JsDate;
  durationMinutes : Z;
  cost : Z;
  isCapped : bool
}.
End BillingSegment.

Module DiscountLog.
Record t := { asset : string; saved : Z }.
End DiscountLog.

Module DiscountInfo.
Record t := {
  finalCost : Z;
  originalCost : Z;
  appliedLogs : list DiscountLog.t
}.
End DiscountInfo.

Module Asset.
Record t := { name : string; description : option string; valid : bool }.
End Asset.

Module UserAsset.
Record t := {
  id : Z;
  asset : option Asset.t;
  expireAt : option JsDate;
  count : Z
}.
End UserAsset.

(** [UserAsset & { asset: Asset }] *)
Module UserAssetWithDef.
Record t := {
  id : Z;
  asset : Asset.t;
  expireAt : option JsDate;
  count : Z
}.
End UserAssetWithDef.

Module Details.
Record t (A : Type) := { available : list A; unavailable : list A }.
Arguments available {A} _.
Arguments unavailable {A} _.
End Details.

Module Balance.
Record t := { available : Z; all : Z }.
End Balance.

Module Bucket.
Record t (A : Type) := {
  available : Z;
  all : Z;
  details : option (Details.t A)
}.
Arguments available {A} _.
Arguments all {A} _.
Arguments details {A} _.
End Bucket.

Module Wallet.
Record t := {
  total : Balance.t;
  paid : Bucket.t UserAsset.t;
  free : Bucket.t UserAsset.t;
  tickets : Bucket.t UserAssetWithDef.t;
  passes : Bucket.t UserAssetWithDef.t
}.
End Wallet.

Module BillingInfo.
Record t := {
  startTime : JsDate;
  endTime : JsDate;
  totalCost : Z;
  segments : list BillingSegment.t
}.
End BillingInfo.

Module BillingResponse.
Record t := {
  session : LogoutSession.t;
  billing : BillingInfo.t;
  discount : option DiscountInfo.t;
  wallet : Wallet.t
}.
End BillingResponse.

(** What [catch (e)] receives.  The wrapper reads
    [e?.response?.data?.message], so every link of the chain may be absent. *)
Module ApiErrorData.
Record t := { message : JsStr }.
End ApiErrorData.

Module ApiErrorResponse.
Record t := { data : option ApiErrorData.t }.
End ApiErrorResponse.

Module ApiError.
Record t := { response : option ApiErrorResponse.t }.
End ApiError.

(** A [TypeError] raised by the runtime carries no [response]. *)
Definition TypeError : ApiError.t := {| ApiError.response := None |}.

(** The answers the handlers read from the endpoints without a declared
    shape. *)
Module LockResponse.
Record t := { password : string }.
End LockResponse.

Module BalanceChange.
Record t := { originalBalance : Z; finalBalance : Z }.
End BalanceChange.

(** ** The chat framework's side: configuration, session, arguments *)

Module Config.
Record t := { url : string; admin : string }.
End Config.

Module Session.
Record t := { userId : JsStr; messageId : JsStr }.
End Session.

Module Argv.
Record t := { session : option Session.t }.
End Argv.

(** types.ts.  The [ctx] of the source is the framework context; its
    [permissions] and [http] are fields of [Env] below. *)
Module ActionContext.
Record t := { config : Config.t; session : option Session.t }.
End ActionContext.

(** ** Effects: the confirmation store, remote calls, exceptions *)

Inductive Method := GET | POST.

(** The number [parseInt(amount)], and its negation, travel in a request
    body unevaluated. *)
Inductive Amount :=
| ParseInt (amount : string)
| Neg (amount : Amount).

Inductive Body :=
| NoBody
| BindsBody (bid : JsStr)
| WalletBody (action : Amount) (comment : string)
| CostBody (cost : Amount).

Inductive Event :=
| Http (method : Method) (url : string) (body : Body)
| KvSet (key : JsStr) (value : Z)
| KvDelete (key : JsStr).

(** [kv] is the module-level [Map<string, number>]; [trace] lists, oldest
    first, the remote calls issued and the store updates made. *)
Record World := { kv : gmap JsStr Z; trace : list Event }.

Inductive Result (A : Type) :=
| Ok (a : A)
| Throw (e : ApiError.t).
Arguments Ok {A} _.
Arguments Throw {A} _.

(** The declared type of an HTTP answer. *)
Inductive RespKind :=
| ROpaque | RLogout | RBilling | RWallet | RAssets | RLock | RBalance.

Definition resp (k : RespKind) : Type :=
  match k with
  | ROpaque => unit
  | RLogout => LogoutResponse.t
  | RBilling => BillingResponse.t
  | RWallet => Wallet.t
  | RAssets => list UserAsset.t
  | RLock => LockResponse.t
  | RBalance => BalanceChange.t
  end.

(** The surroundings of one command invocation: the clock reading of
    [Date.now()], the framework's permission check and the remote API's
    answer to each request. *)
Record Env := {
  now : Z;
  permissions_check : string -> option Session.t -> bool;
  http : forall k : RespKind, Method -> string -> Body -> Result (resp k)
}.

Definition M (A : Type) : Type := Env -> World -> Result A * World.

Definition ret {A} (a : A) : M A := fun _ w => (Ok a, w).

Definition throw {A} (e : ApiError.t) : M A := fun _ w => (Throw e, w).

Definition bind {A B} (c : M A) (k : A -> M B) : M B :=
  fun env w =>
    match c env w with
    | (Ok a, w') => k a env w'
    | (Throw e, w') => (Throw e, w')
    end.

Definition try_catch {A} (c : M A) (handler : ApiError.t -> M A) : M A :=
  fun env w =>
    match c env w with
    | (Ok a, w') => (Ok a, w')
    | (Throw e, w') => handler e env w'
    end.

Declare Scope js_scope.
Delimit Scope js_scope with js.
Notation "x <- c ;; k" := (bind c (fun x => k))
  (at level 100, c at next level, right associativity) : js_scope.
Notation "c ;;; k" := (bind c (fun _ => k))
  (at level 100, right associativity) : js_scope.
Open Scope js_scope.

Definition Date_now : M Z := fun env w => (Ok (now env), w).

Definition check (admin : string) (session : option Session.t) : M bool :=
  fun env w => (Ok (permissions_check env admin session), w).

Definition record (ev : Event) (w : World) : list Event := trace w ++ [ev].

Definition kv_get (key : JsStr) : M (option Z) :=
  fun _ w => (Ok (kv w !! key), w).

Definition kv_set (key : JsStr) (value : Z) : M unit :=
  fun _ w =>
    (Ok tt, {| kv := <[key := value]> (kv w);
               trace := record (KvSet key value) w |}).

Definition kv_delete (key : JsStr) : M unit :=
  fun _ w =>
    (Ok tt, {| kv := delete key (kv w); trace := record (KvDelete key) w |}).

Definition request (k : RespKind) (method : Method) (url : string) (body : Body)
  : M (resp k) :=
  fun env w =>
    (http env k method url body,
     {| kv := kv w; trace := record (Http method url body) w |}).

(** ** service.ts: the remote calls *)

Module service.

Definition endpoint (context : ActionContext.t) (path : string) : string :=
  makeUrl (Config.url (ActionContext.config context)) path.

Definition register (context : ActionContext.t) (userId : JsStr) : M unit :=
  request ROpaque POST (endpoint context "/users") (BindsBody userId).

Definition login (context : ActionContext.t) (userId : JsStr) : M unit :=
  request ROpaque POST
    (endpoint context ("/users/QQ:" +:+ show_str userId +:+ "/login")) NoBody.

Definition logout (context : ActionContext.t) (userId : JsStr)
  : M LogoutResponse.t :=
  request RLogout POST
    (endpoint context ("/users/QQ:" +:+ show_str userId +:+ "/logout")) NoBody.

Definition billing (context : ActionContext.t) (userId : JsStr)
  : M BillingResponse.t :=
  request RBilling GET
    (endpoint context ("/users/QQ:" +:+ show_str userId +:+ "/billing")) NoBody.

Definition wallet (context : ActionContext.t) (userId : JsStr) : M Wallet.t :=
  request RWallet GET
    (endpoint context
       ("/users/QQ:" +:+ show_str userId +:+ "/wallet?details=true"))
    NoBody.

Definition assets (context : ActionContext.t) (userId : JsStr)
  : M (list UserAsset.t) :=
  request RAssets GET
    (endpoint context
       ("/users/QQ:" +:+ show_str userId +:+ "/assets?details=true"))
    NoBody.

Definition getLock (context : ActionContext.t) (userId : JsStr)
  : M LockResponse.t :=
  request RLock GET
    (endpoint context
       ("/users/QQ:" +:+ show_str userId +:+ "/door-password"))
    NoBody.

Definition walletAdd (context : ActionContext.t) (amount : Amount)
    (userId : JsStr) : M BalanceChange.t :=
  request RBalance POST
    (endpoint context ("/users/QQ:" +:+ show_str userId +:+ "/wallet"))
    (WalletBody amount "管理员添加").

Definition walletDel (context : ActionContext.t) (amount : Amount)
    (userId : JsStr) : M BalanceChange.t :=
  request RBalance POST
    (endpoint context ("/users/QQ:" +:+ show_str userId +:+ "/wallet"))
    (WalletBody (Neg amount) "管理员扣除").

Definition costOverwrite (context : ActionContext.t) (amount : string)
    (userId : JsStr) : M unit :=
  request ROpaque POST
    (endpoint context
       ("/users/QQ:" +:+ show_str userId +:+ "/billing-overwrite"))
    (CostBody (ParseInt amount)).

End service.

(** ** index.ts *)

(** [Array.prototype.sort] is stable; for a comparator that is a consistent
    order, as the difference of two integers is, every stable sort returns the
    same array.  Insertion from the right keeps an element before the later
    ones it ties with. *)
Fixpoint sort_insert {A} (compare : A -> A -> Z) (x : A) (l : list A) : list A :=
  match l with
  | [] => [x]
  | y :: l' =>
      if compare x y <=? 0 then x :: y :: l'
      else y :: sort_insert compare x l'
  end.

Fixpoint sort {A} (compare : A -> A -> Z) (l : list A) : list A :=
  match l with
  | [] => []
  | x :: l' => sort_insert compare x (sort compare l')
  end.

(** [new Date(x).getTime()]; [new Date(null)] is the epoch. *)
Definition getTime (d : option JsDate) : Z := default 0 d.

(** [a.b?.c]: optional chaining over [option]. *)
Definition chain {A B} (o : option A) (f : A -> option B) : option B :=
  match o with
  | Some a => f a
  | None => None
  end.

(** What [getTargetUserId] resolves to: [{ error?, userId? }]. *)
Module TargetUserId.
Record t := { error : JsStr; userId : JsStr }.
End TargetUserId.

Section Plugin.

Variable host : Host.

(** *** Helpers *)

Definition formatDateTime (dateStr : option JsDate) : string :=
  match dateStr with
  | None => "永不过期"
  | Some date =>
      let y := getFullYear host date in
      let m := padStart2 (show_num (getMonth host date + 1)) in
      let d := padStart2 (show_num (getDate host date)) in
      let h := padStart2 (show_num (getHours host date)) in
      let min := padStart2 (show_num (getMinutes host date)) in
      let s := padStart2 (show_num (getSeconds host date)) in
      show_num y +:+ "/" +:+ m +:+ "/" +:+ d +:+ " "
        +:+ h +:+ ":" +:+ min +:+ ":" +:+ s
  end.

(** The three cost figures of the preview. *)
Definition originalCost (res : BillingResponse.t) : Z :=
  match BillingResponse.discount res with
  | Some discount => DiscountInfo.originalCost discount
  | None => BillingInfo.totalCost (BillingResponse.billing res)
  end.

Definition finalCost (res : BillingResponse.t) : Z :=
  let finalCost :=
    match BillingResponse.discount res with
    | Some discount => DiscountInfo.finalCost discount
    | None => BillingInfo.totalCost (BillingResponse.billing res)
    end in
  let costOverwrite :=
    LogoutSession.costOverwrite (BillingResponse.session res) in
  if truthy_num costOverwrite then default finalCost costOverwrite
  else finalCost.

Definition formatTime (d : JsDate) : string := toLocaleTimeString host d.

Definition formatDate (d : JsDate) : string :=
  show_num (getMonth host d + 1) +:+ "/" +:+ show_num (getDate host d).

Definition timeString (seg : BillingSegment.t) : string :=
  let start := BillingSegment.startTime seg in
  let end_ := BillingSegment.endTime seg in
  if String.eqb (toLocaleDateString host start) (toLocaleDateString host end_)
  then formatTime start +:+ " - " +:+ formatTime end_
  else formatDate start +:+ " " +:+ formatTime start +:+ " - "
         +:+ formatDate end_ +:+ " " +:+ formatTime end_.

(** The body of the [forEach] over the segments. *)
Definition pushSegment (message : list string) (seg : BillingSegment.t)
  : list string :=
  if 0 <=? BillingSegment.cost seg then
    let message := push message ("- " +:+ BillingSegment.ruleName seg) in
    let message := push message ("  时段: " +:+ timeString seg) in
    push message
      ("  费用: " +:+ show_num (BillingSegment.cost seg) +:+ " 月饼 "
         +:+ (if BillingSegment.isCapped seg then "(已封顶)" else ""))
  else message.

(** The segments block: [if (segments.length > 0) { forEach } else { push }]. *)
Definition pushSegments (message : list string)
    (segments : list BillingSegment.t) : list string :=
  if (0 <? length segments)%nat
  then fold_left pushSegment segments message
  else push message "  (无)".

Definition pushDiscountLog (message : list string) (log : DiscountLog.t)
  : list string :=
  push message
    ("  -「" +:+ DiscountLog.asset log +:+ "」: -"
       +:+ show_num (DiscountLog.saved log) +:+ " 月饼").

(** [res.wallet.passes?.details?.available?.[0]] *)
Definition monthlyPass (res : BillingResponse.t) : option UserAssetWithDef.t :=
  chain (Bucket.details (Wallet.passes (BillingResponse.wallet res)))
    (fun details => head (Details.available details)).

(** [formatBilling] fills its [message] array in three stages, kept apart
    here: the lines down to the segments heading, the segments block and the
    pass-expiry block. *)
Definition billingHead (res : BillingResponse.t) : list string :=
  let message := [] in
  let message := push message "--- 账单详情 ---" in
  (* Session Times *)
  let message :=
    push message
      ("入场: " +:+ formatDateTime
         (Some (LogoutSession.createdAt (BillingResponse.session res)))) in
  let message :=
    push message
      ("结算: " +:+ formatDateTime
         (Some (BillingInfo.endTime (BillingResponse.billing res)))) in
  let message := push message "---" in
  (* Costs *)
  let message :=
    push message ("计费价: " +:+ show_num (originalCost res) +:+ " 月饼") in
  let message :=
    match BillingResponse.discount res with
    | Some discount =>
        if (0 <? length (DiscountInfo.appliedLogs discount))%nat
        then fold_left pushDiscountLog (DiscountInfo.appliedLogs discount)
               message
        else message
    | None => message
    end in
  let message :=
    push message ("结算价: " +:+ show_num (finalCost res) +:+ " 月饼") in
  let message := push message "---" in
  (* Wallet *)
  let currentBalance :=
    Balance.available (Wallet.total (BillingResponse.wallet res)) in
  let finalBalance := currentBalance - finalCost res in
  let message :=
    push message ("当前余额: " +:+ show_num currentBalance +:+ " 月饼") in
  let message :=
    push message ("扣款后: " +:+ show_num finalBalance +:+ " 月饼") in
  let message := push message "---" in
  (* Segments *)
  push message "计费区间:".

Definition pushPassExpiry (message : list string) (res : BillingResponse.t)
  : list string :=
  match monthlyPass res with
  | Some monthlyPass =>
      match UserAssetWithDef.expireAt monthlyPass with
      | Some expireAt =>
          let message := push message "---" in
          push message
            ("您的月卡将于 " +:+ formatDateTime (Some expireAt) +:+ " 到期。")
      | None => message
      end
  | None => message
  end.

(** The [message] array of [formatBilling] just before [join]. *)
Definition formatBilling_message (res : BillingResponse.t) : list string :=
  let message := billingHead res in
  (* Segments *)
  let message :=
    pushSegments message
      (BillingInfo.segments (BillingResponse.billing res)) in
  (* Pass Expiry *)
  pushPassExpiry message res.

Definition formatBilling (res : BillingResponse.t) : string :=
  join LF (formatBilling_message res).

(** *** The command wrapper *)

Definition apiMessage (e : ApiError.t) : JsStr :=
  chain (ApiError.response e) (fun response =>
  chain (ApiErrorResponse.data response) (fun data =>
  ApiErrorData.message data)).

Definition handleAction {A} (action : Argv.t -> A -> M string)
    (argv : Argv.t) (args : A) : M string :=
  message <-
    try_catch (action argv args)
      (fun e =>
         let apiMessage := apiMessage e in
         if truthy_str apiMessage then ret (show_str apiMessage)
         else ret "操作失败，发生了未知错误。") ;;
  let messageId := chain (Argv.session argv) Session.messageId in
  let message :=
    if truthy_str messageId
    then quote host (show_str messageId) +:+ message
    else message in
  ret message.

(** *** Command handlers *)

(** [context.session.userId]; reading a property of [undefined] throws. *)
Definition session_userId (context : ActionContext.t) : M JsStr :=
  match ActionContext.session context with
  | Some session => ret (Session.userId session)
  | None => throw TypeError
  end.

Definition getTargetUserId (context : ActionContext.t) (user : JsStr)
  : M TargetUserId.t :=
  if truthy_str user then
    allowed <- check (Config.admin (ActionContext.config context))
                 (ActionContext.session context) ;;
    if negb allowed then
      ret {| TargetUserId.error := Some "权限不足";
             TargetUserId.userId := None |}
    else
      ret {| TargetUserId.error := None;
             TargetUserId.userId := split ":" (show_str user) !! 1%nat |}
  else
    userId <- session_userId context ;;
    ret {| TargetUserId.error := None; TargetUserId.userId := userId |}.

Definition handleRegisterCmd (context : ActionContext.t) (user : JsStr)
  : M string :=
  target <- getTargetUserId context user ;;
  let error := TargetUserId.error target in
  let userId := TargetUserId.userId target in
  if truthy_str error then ret (show_str error) else
  service.register context userId ;;;
  ret (if truthy_str user
       then "为用户 " +:+ show_str userId +:+ " 注册成功"
       else "注册成功").

Definition handleLoginCmd (context : ActionContext.t) (user : JsStr)
  : M string :=
  target <- getTargetUserId context user ;;
  let error := TargetUserId.error target in
  let userId := TargetUserId.userId target in
  if truthy_str error then ret (show_str error) else
  service.login context userId ;;;
  pwd <- service.getLock context userId ;;
  if truthy_str user then
    ret ("✅ 已为用户 " +:+ show_str userId +:+ " 入场，该用户的门锁密码是: "
           +:+ LockResponse.password pwd +:+ LF
           +:+ "注意! 门锁密码有效期为三分钟")
  else
    ret ("✅ 入场成功，你的门锁密码是: " +:+ LockResponse.password pwd +:+ LF
           +:+ "注意! 门锁密码有效期为三分钟").

(** [pendingLogout && (now - pendingLogout < 60 * 1000)] *)
Definition confirming (pendingLogout : option Z) (now : Z) : bool :=
  truthy_num pendingLogout
  && match pendingLogout with
     | Some pendingLogout => now - pendingLogout <? 60 * 1000
     | None => false
     end.

(** The two replies of [handleLogoutCmd]: the receipt of the confirmation step
    and the preview of a first request. *)
Definition logoutReceipt (user targetUserId : JsStr) (res : LogoutResponse.t)
  : string :=
  let messagePrefix :=
    if truthy_str user
    then "✅ 已为用户 " +:+ show_str targetUserId +:+ " 退场"
    else "✅ 退场成功" in
  join LF [
    messagePrefix;
    "入场时间: " +:+ formatDateTime
      (Some (LogoutSession.createdAt (LogoutResponse.session res)));
    "离场时间: " +:+ formatDateTime
      (LogoutSession.closedAt (LogoutResponse.session res));
    "消费: " +:+ show_num
      (LogoutSession.finalCost (LogoutResponse.session res)) +:+ " 月饼"
  ].

Definition logoutPreview (user targetUserId : JsStr) (billingMessage : string)
  : string :=
  if truthy_str user then
    "以下是用户 " +:+ show_str targetUserId +:+ " 的账单预览:"
      +:+ LF +:+ LF +:+ billingMessage +:+ LF +:+ LF +:+ "---" +:+ LF
      +:+ "⚠️ 请在60秒内再次输入 /logout " +:+ show_str user
      +:+ " 以确认登出。"
  else
    billingMessage +:+ LF +:+ LF +:+ "---" +:+ LF
      +:+ "⚠️ 这是您的账单预览。请在60秒内再次输入 /logout 以确认登出。".

Definition handleLogoutCmd (context : ActionContext.t) (user : JsStr)
  : M string :=
  target <- getTargetUserId context user ;;
  let error := TargetUserId.error target in
  let targetUserId := TargetUserId.userId target in
  if truthy_str error then ret (show_str error) else
  pendingLogout <- kv_get targetUserId ;;
  now <- Date_now ;;
  if confirming pendingLogout now then
    (* Confirmation step *)
    kv_delete targetUserId ;;;
    res <- service.logout context targetUserId ;;
    ret (logoutReceipt user targetUserId res)
  else
    (* First request, show billing preview *)
    billingRes <- service.billing context targetUserId ;;
    let billingMessage := formatBilling billingRes in
    kv_set targetUserId now ;;;
    ret (logoutPreview user targetUserId billingMessage).

(** [res.free.details?.available?.filter(asset => asset.expireAt) || []] *)
Definition expiringFreeAssets (res : Wallet.t) : list UserAsset.t :=
  match Bucket.details (Wallet.free res) with
  | Some details =>
      filter (fun asset => is_Some (UserAsset.expireAt asset))
        (Details.available details)
  | None => []
  end.

(** The comparator handed to [sort]. *)
Definition byExpiry (a b : UserAsset.t) : Z :=
  getTime (UserAsset.expireAt a) - getTime (UserAsset.expireAt b).

(** [res.passes?.details?.available || []], and the same for tickets. *)
Definition availableOf {A} (bucket : Bucket.t A) : list A :=
  match Bucket.details bucket with
  | Some details => Details.available details
  | None => []
  end.

Definition pushPass (message : list string) (pass : UserAssetWithDef.t)
  : list string :=
  let message :=
    push message ("- " +:+ Asset.name (UserAssetWithDef.asset pass)) in
  push message
    ("  到期: " +:+ formatDateTime (UserAssetWithDef.expireAt pass)).

Definition pushTicket (message : list string) (ticket : UserAssetWithDef.t)
  : list string :=
  let message :=
    push message
      ("- " +:+ Asset.name (UserAssetWithDef.asset ticket) +:+ " (x"
         +:+ show_num (UserAssetWithDef.count ticket) +:+ ")") in
  push message
    ("  到期: " +:+ formatDateTime (UserAssetWithDef.expireAt ticket)).

(** The note pushed for the soonest-expiring free asset. *)
Definition expiringNote (soonestToExpire : UserAsset.t) : string :=
  LF +:+ "注意：您有 " +:+ show_num (UserAsset.count soonestToExpire)
    +:+ " 免费月饼将于 "
    +:+ formatDateTime (UserAsset.expireAt soonestToExpire) +:+ " 过期。".

(** The expiring-assets block of [handleWalletCmd]: filter, test the length,
    sort in place, read element 0. *)
Definition pushExpiring (message : list string) (res : Wallet.t)
  : list string :=
  let expiringFreeAssets := expiringFreeAssets res in
  if (0 <? length expiringFreeAssets)%nat then
    (* a sorted non-empty array has an element 0 *)
    match sort byExpiry expiringFreeAssets with
    | soonestToExpire :: _ => push message (expiringNote soonestToExpire)
    | [] => message
    end
  else message.

(** [handleWalletCmd] fills its [message] array in three stages, kept apart
    here: the balances, the expiring-assets block and the passes and
    tickets. *)
Definition walletBalances (res : Wallet.t) (targetUserId : JsStr)
  : list string :=
  let message := [] in
  let message :=
    push message
      (if truthy_str targetUserId
       then "--- 用户 " +:+ show_str targetUserId +:+ " 的钱包余额 ---"
       else "--- 钱包余额 ---") in
  let message :=
    (message ++ [
      "可用: " +:+ show_num (Balance.available (Wallet.total res))
        +:+ " 月饼 (共 " +:+ show_num (Balance.all (Wallet.total res))
        +:+ ")";
      "  - 付费: " +:+ show_num (Bucket.available (Wallet.paid res));
      "  - 免费: " +:+ show_num (Bucket.available (Wallet.free res))
    ])%list in
  let unavailable :=
    Balance.all (Wallet.total res) - Balance.available (Wallet.total res) in
  if 0 <? unavailable
  then push message
         (LF +:+ "您还有 " +:+ show_num unavailable
            +:+ " 月饼未到可用时间。")
  else message.

Definition pushGrants (message : list string) (res : Wallet.t) : list string :=
  (* Passes *)
  let availablePasses := availableOf (Wallet.passes res) in
  let message :=
    if (0 <? length availablePasses)%nat then
      fold_left pushPass availablePasses
        (push message
           (LF +:+ "--- 可用月卡 ("
              +:+ show_num (Z.of_nat (length availablePasses)) +:+ ") ---"))
    else message in
  (* Tickets *)
  let availableTickets := availableOf (Wallet.tickets res) in
  if (0 <? length availableTickets)%nat then
    fold_left pushTicket availableTickets
      (push message
         (LF +:+ "--- 可用优惠券 ("
            +:+ show_num (Z.of_nat (length availableTickets)) +:+ ") ---"))
  else message.

(** The [message] array of [handleWalletCmd] just before [join]. *)
Definition wallet_message (res : Wallet.t) (targetUserId : JsStr)
  : list string :=
  let message := walletBalances res targetUserId in
  let message := pushExpiring message res in
  pushGrants message res.

Definition handleWalletCmd (context : ActionContext.t) (user : JsStr)
  : M string :=
  target <- getTargetUserId context user ;;
  let error := TargetUserId.error target in
  let userId := TargetUserId.userId target in
  if truthy_str error then ret (show_str error) else
  res <- service.wallet context userId ;;
  let targetUserId := if truthy_str user then userId else None in
  ret (join LF (wallet_message res targetUserId)).

Definition handleBillingCmd (context : ActionContext.t) (user : JsStr)
  : M string :=
  target <- getTargetUserId context user ;;
  let error := TargetUserId.error target in
  let userId := TargetUserId.userId target in
  if truthy_str error then ret (show_str error) else
  res <- service.billing context userId ;;
  let billingMessage := formatBilling res in
  if truthy_str user then
    ret ("用户 " +:+ show_str userId +:+ " 的账单:" +:+ LF +:+ LF
           +:+ billingMessage)
  else ret billingMessage.

(** One line of the items report; [asset.asset] may be [null]. *)
Definition itemLine (asset : UserAsset.t) : M string :=
  match UserAsset.asset asset with
  | None => throw TypeError
  | Some def =>
      let line :=
        "- " +:+ Asset.name def +:+ " (x"
          +:+ show_num (UserAsset.count asset) +:+ ")" in
      match UserAsset.expireAt asset with
      | Some expireAt =>
          ret (line +:+ LF +:+ "  到期: " +:+ formatDateTime (Some expireAt))
      | None => ret line
      end
  end.

(** [Array.prototype.map] with a callback that may throw. *)
Fixpoint mapM {A B} (f : A -> M B) (l : list A) : M (list B) :=
  match l with
  | [] => ret []
  | x :: l' => y <- f x ;; ys <- mapM f l' ;; ret (y :: ys)
  end.

Definition handleItemsCmd (context : ActionContext.t) (user : JsStr)
  : M string :=
  target <- getTargetUserId context user ;;
  let error := TargetUserId.error target in
  let userId := TargetUserId.userId target in
  if truthy_str error then ret (show_str error) else
  userAssets <- service.assets context userId ;;
  if (length userAssets =? 0)%nat then
    ret (if truthy_str user
         then "用户 " +:+ show_str userId +:+ " 没有任何物品。"
         else "您当前没有任何物品。")
  else
    let header :=
      if truthy_str user
      then "--- 用户 " +:+ show_str userId +:+ " 拥有的物品 ---"
      else "--- 您拥有的物品 ---" in
    itemsList <- mapM itemLine userAssets ;;
    ret (join LF (header :: itemsList)).

Definition handleWalletAdd (context : ActionContext.t) (user amount : JsStr)
  : M string :=
  target <- getTargetUserId context user ;;
  let error := TargetUserId.error target in
  let userId := TargetUserId.userId target in
  if truthy_str error then ret (show_str error) else
  if negb (truthy_str amount) then ret "请输入数量" else
  res <- service.walletAdd context (ParseInt (show_str amount)) userId ;;
  ret (join LF [
    "为用户 " +:+ show_str userId +:+ " 增加月饼成功";
    "增加前: " +:+ show_num (BalanceChange.originalBalance res);
    "增加后: " +:+ show_num (BalanceChange.finalBalance res)
  ]).

Definition handleWalletDeduct (context : ActionContext.t)
    (user amount : JsStr) : M string :=
  target <- getTargetUserId context user ;;
  let error := TargetUserId.error target in
  let userId := TargetUserId.userId target in
  if truthy_str error then ret (show_str error) else
  if negb (truthy_str amount) then ret "请输入数量" else
  res <- service.walletDel context (ParseInt (show_str amount)) userId ;;
  ret (join LF [
    "为用户 " +:+ show_str userId +:+ " 扣除月饼成功";
    "扣款前: " +:+ show_num (BalanceChange.originalBalance res);
    "扣款后: " +:+ show_num (BalanceChange.finalBalance res)
  ]).

Definition handleCostOverwrite (context : ActionContext.t)
    (user amount : JsStr) : M string :=
  target <- getTargetUserId context user ;;
  let error := TargetUserId.error target in
  let userId := TargetUserId.userId target in
  if truthy_str error then ret (show_str error) else
  if negb (truthy_str amount) then ret "请输入数量" else
  service.costOverwrite context (show_str amount) userId ;;;
  ret ("为用户 " +:+ show_str userId +:+ " 调价成功").

(** *** [apply]: the commands that take a target user *)

Definition createAction {A} (config : Config.t)
    (handler : ActionContext.t -> A -> M string) : Argv.t -> A -> M string :=
  let actionFn := fun (argv : Argv.t) (args : A) =>
    let context := {| ActionContext.config := config;
                      ActionContext.session := Argv.session argv |} in
    handler context args in
  handleAction actionFn.

Inductive Command :=
| cmd_register | cmd_login | cmd_logout | cmd_wallet | cmd_billing
| cmd_items | cmd_add | cmd_del | cmd_overwrite.

(** The handler bound to each command; [amount] is read by [add], [del] and
    [overwrite] only. *)
Definition handler (cmd : Command) (context : ActionContext.t)
    (args : JsStr * JsStr) : M string :=
  let '(user, amount) := args in
  match cmd with
  | cmd_register => handleRegisterCmd context user
  | cmd_login => handleLoginCmd context user
  | cmd_logout => handleLogoutCmd context user
  | cmd_wallet => handleWalletCmd context user
  | cmd_billing => handleBillingCmd context user
  | cmd_items => handleItemsCmd context user
  | cmd_add => handleWalletAdd context user amount
  | cmd_del => handleWalletDeduct context user amount
  | cmd_overwrite => handleCostOverwrite context user amount
  end.

Definition apply (config : Config.t) (cmd : Command)
  : Argv.t -> JsStr * JsStr -> M string :=
  createAction config (handler cmd).

End Plugin.

(** ** A concrete host: UTC, with the shapes Node prints

    Used where a statement is evaluated on concrete data. *)

Module Utc.

Definition day (t : JsDate) : Z := t / 86400000.

Definition secondOfDay (t : JsDate) : Z := (t mod 86400000) / 1000.

(** Civil date from the day number (days since 1970-01-01): the month
    counted from March, the day of the month and the year. *)
Definition civil (t : JsDate) : Z * Z * Z :=
  let z := day t + 719468 in
  let era := z / 146097 in
  let doe := z - era * 146097 in
  let yoe := (doe - doe / 1460 + doe / 36524 - doe / 146096) / 365 in
  let doy := doe - (365 * yoe + yoe / 4 - yoe / 100) in
  let mp := (5 * doy + 2) / 153 in
  let d := doy - (153 * mp + 2) / 5 + 1 in
  let m := if mp <? 10 then mp + 3 else mp - 9 in
  let y := yoe + era * 400 + (if m <=? 2 then 1 else 0) in
  (y, m, d).

Definition year (t : JsDate) : Z := fst (fst (civil t)).
Definition month (t : JsDate) : Z := snd (fst (civil t)) - 1.
Definition date (t : JsDate) : Z := snd (civil t).
Definition hours (t : JsDate) : Z := secondOfDay t / 3600.
Definition minutes (t : JsDate) : Z := (secondOfDay t / 60) mod 60.
Definition seconds (t : JsDate) : Z := secondOfDay t mod 60.

Definition host : Host := {|
  getFullYear := year;
  getMonth := month;
  getDate := date;
  getHours := hours;
  getMinutes := minutes;
  getSeconds := seconds;
  toLocaleTimeString t :=
    padStart2 (show_num (hours t)) +:+ ":" +:+ padStart2 (show_num (minutes t))
      +:+ ":" +:+ padStart2 (show_num (seconds t));
  toLocaleDateString t :=
    show_num (month t + 1) +:+ "/" +:+ show_num (date t) +:+ "/"
      +:+ show_num (year t);
  quote id := "<quote id=" +:+ DQUOTE +:+ id +:+ DQUOTE +:+ "/>"
|}.

End Utc.

(** ** index.ts: the commands without a target user

    [list], [lock] and [redeem] never read or write the confirmation store.
    [lock] calls [service.getLock], embedded above.  The requests of
    [service.list] and [service.redeem] have answers and a body of other
    shapes than those above, so these two service functions are taken as
    parameters of their handlers: any computation of [M] with the declared
    answer type. *)

Module Bind.
Record t := { type : string; bid : string }.
End Bind.

Module SessionInfo.
Record t := { createdAt : JsDate }.
End SessionInfo.

Module LoggedInUser.
Record t := { binds : list Bind.t; sessions : list SessionInfo.t }.
End LoggedInUser.

(** What [redeem] grants: [{ name, count, assetType, durationMs? }]. *)
Module RedeemItem.
Record t := {
  name : string;
  count : Z;
  assetType : string;
  durationMs : option Z
}.
End RedeemItem.

Section OtherCommands.

Variable host : Host.

(** The callback of [users.map] in [handleListCmd]; [user.sessions[0]] of an
    empty array is [undefined], and reading [createdAt] of it throws. *)
Definition userReport (user : LoggedInUser.t) : M string :=
  let qqBind :=
    List.find (fun bind => String.eqb (Bind.type bind) "QQ")
      (LoggedInUser.binds user) in
  let name :=
    match qqBind with
    | Some qqBind => Bind.bid qqBind
    | None => "匿名玩家"
    end in
  match head (LoggedInUser.sessions user) with
  | None => throw TypeError
  | Some session =>
      let entryDate :=
        formatDateTime host (Some (SessionInfo.createdAt session)) in
      ret ("玩家: " +:+ name +:+ LF +:+ "入场时间: " +:+ entryDate)
  end.

Definition handleListCmd
    (service_list : ActionContext.t -> M (list LoggedInUser.t))
    (context : ActionContext.t) : M string :=
  users <- service_list context ;;
  if (length users =? 0)%nat then ret "窝里目前没有玩家呢" else
  userReports <- mapM userReport users ;;
  ret ("窝里目前共有 " +:+ show_num (Z.of_nat (length users)) +:+ " 人"
         +:+ LF +:+ LF +:+ join (LF +:+ LF) userReports).

Definition handleLockCmd (context : ActionContext.t) : M string :=
  userId <- session_userId context ;;
  res <- service.getLock context userId ;;
  ret (join LF [
    "获取密码成功";
    "你的门锁密码是: " +:+ LockResponse.password res;
    "注意! 门锁密码有效期为三分钟"
  ]).

(** The name under which a granted item is listed: a pass with a duration of
    at least one whole day carries its number of days. *)
Definition redeemItemName (item : RedeemItem.t) : string :=
  let itemName := RedeemItem.name item in
  if String.eqb (RedeemItem.assetType item) "PASS"
     && truthy_num (RedeemItem.durationMs item)
  then
    let days := default 0 (RedeemItem.durationMs item) / (1000 * 60 * 60 * 24) in
    if 0 <? days
    then itemName +:+ " (" +:+ show_num days +:+ "天)"
    else itemName
  else itemName.

Definition pushRedeemItem (message : list string) (item : RedeemItem.t)
  : list string :=
  push message
    ("- " +:+ redeemItemName item +:+ " x" +:+ show_num (RedeemItem.count item)).

Definition handleRedeem
    (service_redeem :
       ActionContext.t -> string -> JsStr -> M (list RedeemItem.t))
    (context : ActionContext.t) (code : JsStr) : M string :=
  target <- getTargetUserId context None ;;
  let error := TargetUserId.error target in
  let userId := TargetUserId.userId target in
  if truthy_str error then ret (show_str error) else
  if negb (truthy_str code) then ret "请输入兑换码" else
  items <- service_redeem context (show_str code) userId ;;
  if (length items =? 0)%nat then ret "兑换成功，但没有获得任何物品。" else
  let message := ["✅ 兑换成功！您获得了以下物品："] in
  let message := fold_left pushRedeemItem items message in
  ret (join LF message).

End OtherCommands.

(** ** Vocabulary of the statements *)

(** A run of [n] path separators. *)
Fixpoint slashes (n : nat) : string :=
  match n with
  | O => ""
  | S n => String "/" (slashes n)
  end.

(** The three lines one billing segment takes in the preview. *)
Definition segmentEntry (host : Host) (seg : BillingSegment.t) : list string :=
  [ "- " +:+ BillingSegment.ruleName seg;
    "  时段: " +:+ timeString host seg;
    "  费用: " +:+ show_num (BillingSegment.cost seg) +:+ " 月饼 "
      +:+ (if BillingSegment.isCapped seg then "(已封顶)" else "") ].

(** Identity resolution succeeds with target [U]. *)
Definition resolvesTo (context : ActionContext.t) (user : JsStr) (env : Env)
    (U : JsStr) : Prop :=
  forall w,
    getTargetUserId context user env w
    = (Ok {| TargetUserId.error := None; TargetUserId.userId := U |}, w).

Definition logoutUrl (context : ActionContext.t) (U : JsStr) : string :=
  service.endpoint context ("/users/QQ:" +:+ show_str U +:+ "/logout").

Definition billingUrl (context : ActionContext.t) (U : JsStr) : string :=
  service.endpoint context ("/users/QQ:" +:+ show_str U +:+ "/billing").

(** The world after an invocation that left the store as [store] and
    appended [events] to the trace. *)
Definition after (w : World) (store : gmap JsStr Z) (events : list Event)
  : World :=
  {| kv := store; trace := trace w ++ events |}.

(** The reply of the rejected identity resolution. *)
Definition denied : TargetUserId.t :=
  {| TargetUserId.error := Some "权限不足"; TargetUserId.userId := None |}.




(** ** Sample data *)

Module Sample.

Definition config : Config.t :=
  {| Config.url := "https://neo.example/"; Config.admin := "authority:3" |}.

Definition session : Session.t :=
  {| Session.userId := Some "10001"; Session.messageId := Some "m-77" |}.

Definition context : ActionContext.t :=
  {| ActionContext.config := config; ActionContext.session := Some session |}.

Definition argv : Argv.t := {| Argv.session := Some session |}.

Definition emptyBucket {A} (available : Z) : Bucket.t A :=
  {| Bucket.available := available; Bucket.all := available;
     Bucket.details := None |}.

Definition freeAsset (id : Z) (count : Z) (expireAt : option JsDate)
  : UserAsset.t :=
  {| UserAsset.id := id; UserAsset.asset := None;
     UserAsset.expireAt := expireAt; UserAsset.count := count |}.

(** A wallet whose free tier holds [assets]. *)
Definition walletWith (assets : list UserAsset.t) : Wallet.t :=
  {| Wallet.total := {| Balance.available := 120; Balance.all := 120 |};
     Wallet.paid := emptyBucket 100;
     Wallet.free :=
       {| Bucket.available := 20; Bucket.all := 20;
          Bucket.details :=
            Some {| Details.available := assets;
                    Details.unavailable := [] |} |};
     Wallet.tickets := emptyBucket 0;
     Wallet.passes := emptyBucket 0 |}.

Definition mar01 : JsDate := 1740787200000.
Definition jan15 : JsDate := 1736899200000.
Definition feb10 : JsDate := 1739145600000.

Definition expiringWallet : Wallet.t :=
  walletWith [ freeAsset 1 5 (Some mar01); freeAsset 2 7 (Some jan15);
               freeAsset 3 8 (Some feb10) ].

Definition segment (ruleName : string) (cost : Z) : BillingSegment.t :=
  {| BillingSegment.ruleId := 1; BillingSegment.ruleName := ruleName;
     BillingSegment.startTime := jan15 + 36000000;
     BillingSegment.endTime := jan15 + 43200000;
     BillingSegment.durationMinutes := 120;
     BillingSegment.cost := cost; BillingSegment.isCapped := false |}.

(** A billing preview with total cost 100. *)
Definition billingWith (costOverwrite : option Z)
    (discount : option DiscountInfo.t) (segments : list BillingSegment.t)
  : BillingResponse.t :=
  {| BillingResponse.session :=
       {| LogoutSession.createdAt := jan15 + 36000000;
          LogoutSession.closedAt := None;
          LogoutSession.costOverwrite := costOverwrite;
          LogoutSession.finalCost := 0 |};
     BillingResponse.billing :=
       {| BillingInfo.startTime := jan15 + 36000000;
          BillingInfo.endTime := jan15 + 43200000;
          BillingInfo.totalCost := 100;
          BillingInfo.segments := segments |};
     BillingResponse.discount := discount;
     BillingResponse.wallet := walletWith [] |}.

Definition discount80 : DiscountInfo.t :=
  {| DiscountInfo.finalCost := 80; DiscountInfo.originalCost := 100;
     DiscountInfo.appliedLogs :=
       [ {| DiscountLog.asset := "夜间券"; DiscountLog.saved := 20 |} ] |}.

Definition logoutResponse : LogoutResponse.t :=
  {| LogoutResponse.session :=
       {| LogoutSession.createdAt := jan15 + 36000000;
          LogoutSession.closedAt := Some (jan15 + 43200000);
          LogoutSession.costOverwrite := None;
          LogoutSession.finalCost := 80 |};
     LogoutResponse.billing := {| LogoutBilling.totalCost := 100 |} |}.

Definition answer (k : RespKind) : resp k :=
  match k with
  | ROpaque => tt
  | RLogout => logoutResponse
  | RBilling => billingWith None (Some discount80) [segment "日间" 100]
  | RWallet => expiringWallet
  | RAssets => []
  | RLock => {| LockResponse.password := "4711" |}
  | RBalance =>
      {| BalanceChange.originalBalance := 20; BalanceChange.finalBalance := 30 |}
  end.

(** The remote API answers every request. *)
Definition up : forall k : RespKind, Method -> string -> Body -> Result (resp k) :=
  fun k _ _ _ => Ok (answer k).

(** The remote API rejects every request with a message. *)
Definition rejected : ApiError.t :=
  {| ApiError.response :=
       Some {| ApiErrorResponse.data :=
                 Some {| ApiErrorData.message := Some "用户未入场" |} |} |}.

Definition down : forall k : RespKind, Method -> string -> Body -> Result (resp k) :=
  fun _ _ _ _ => Throw rejected.

Definition env (now : Z) (allowed : bool)
    (http : forall k : RespKind, Method -> string -> Body -> Result (resp k))
  : Env :=
  {| now := now; permissions_check := fun _ _ => allowed; http := http |}.

Definition world0 : World := {| kv := ∅; trace := [] |}.

End Sample.

(** ** Further vocabulary *)

(** The character [a] occurs in [s]. *)
Fixpoint occurs (a : ascii) (s : string) : bool :=
  match s with
  | "" => false
  | String b rest => Ascii.eqb b a || occurs a rest
  end.


(** ** Further sample data *)

Module Sample2.

(** An admin, caller of commands on behalf of the user 10001. *)
Definition adminSession : Session.t :=
  {| Session.userId := Some "90001"; Session.messageId := Some "m-78" |}.

Definition adminContext : ActionContext.t :=
  {| ActionContext.config := Sample.config;
     ActionContext.session := Some adminSession |}.

Definition user (qq : list string) (sessions : list JsDate) : LoggedInUser.t :=
  {| LoggedInUser.binds :=
       {| Bind.type := "WX"; Bind.bid := "wx-1" |}
       :: map (fun bid => {| Bind.type := "QQ"; Bind.bid := bid |}) qq;
     LoggedInUser.sessions :=
       map (fun t => {| SessionInfo.createdAt := t |}) sessions |}.

Definition pass (durationMs : option Z) : RedeemItem.t :=
  {| RedeemItem.name := "月卡"; RedeemItem.count := 1;
     RedeemItem.assetType := "PASS"; RedeemItem.durationMs := durationMs |}.

(** The remote API of [Sample.up], its assets endpoint answering [assets]. *)
Definition holding (assets : list UserAsset.t)
  : forall k : RespKind, Method -> string -> Body -> Result (resp k) :=
  fun k =>
    match k as k return Method -> string -> Body -> Result (resp k) with
    | RAssets => fun _ _ _ => Ok assets
    | k => Sample.up k
    end.

Definition coupon : UserAsset.t :=
  {| UserAsset.id := 7;
     UserAsset.asset :=
       Some {| Asset.name := "夜间券"; Asset.description := None;
               Asset.valid := true |};
     UserAsset.expireAt := Some Sample.feb10; UserAsset.count := 2 |}.

(** [service.list] answering [users] without further effect. *)
Definition listing (users : list LoggedInUser.t)
  : ActionContext.t -> M (list LoggedInUser.t) :=
  fun _ => ret users.

End Sample2.

(** * Properties *)

(** ** Strings *)

Lemma app_cons a s t : String a s +:+ t = String a (s +:+ t).
Proof. reflexivity. Qed.

Lemma app_empty_r s : s +:+ "" = s.
Proof. induction s as [|a s IH]; [reflexivity|]. rewrite app_cons. by f_equal. Qed.

Lemma app_assoc3 s t u : (s +:+ t) +:+ u = s +:+ t +:+ u.
Proof.
  induction s as [|a s IH]; [reflexivity|]. rewrite !app_cons. by f_equal.
Qed.

Lemma rev_app_spec s t : String.rev_app s t = String.rev s +:+ t.
Proof.
  unfold String.rev. revert t.
  induction s as [|a s IH]; intros t; simpl; [reflexivity|].
  rewrite (IH (String a t)), (IH (String a "")), app_assoc3. reflexivity.
Qed.

Lemma rev_cons a s : String.rev (String a s) = String.rev s +:+ String a "".
Proof. unfold String.rev at 1. simpl. apply rev_app_spec. Qed.

Lemma rev_append s t : String.rev (s +:+ t) = String.rev t +:+ String.rev s.
Proof.
  induction s as [|a s IH].
  - change ("" +:+ t) with t. symmetry. apply app_empty_r.
  - rewrite app_cons, !rev_cons, IH, app_assoc3. reflexivity.
Qed.

Lemma rev_involutive s : String.rev (String.rev s) = s.
Proof.
  induction s as [|a s IH]; [reflexivity|].
  rewrite rev_cons, rev_append, IH. reflexivity.
Qed.

Lemma rev_slashes n : String.rev (slashes n) = slashes n.
Proof.
  induction n as [|n IH]; [reflexivity|].
  simpl. rewrite rev_cons, IH. clear IH.
  induction n as [|n IH]; [reflexivity|].
  simpl. rewrite app_cons. by f_equal.
Qed.

Lemma dropSlashes_run s : exists n, s = slashes n +:+ dropSlashes s.
Proof.
  induction s as [|a s [n IH]]; [by exists 0%nat|].
  destruct (decide (a = "/"%char)) as [->|Hne].
  - exists (S n). simpl. rewrite app_cons. by f_equal.
  - exists 0%nat. simpl.
    destruct a as [[] [] [] [] [] [] [] []]; try reflexivity. by destruct Hne.
Qed.

Lemma dropSlashes_head s t : dropSlashes s <> String "/" t.
Proof.
  induction s as [|a s IH]; [discriminate|].
  destruct (decide (a = "/"%char)) as [->|Hne]; [exact IH|].
  simpl. destruct a as [[] [] [] [] [] [] [] []]; try congruence.
Qed.

Lemma dropTrailingSlashes_run s :
  exists n, s = dropTrailingSlashes s +:+ slashes n.
Proof.
  unfold dropTrailingSlashes.
  destruct (dropSlashes_run (String.rev s)) as [n Hn]. exists n.
  rewrite <- (rev_involutive s) at 1. rewrite Hn at 1.
  rewrite rev_append, rev_slashes. reflexivity.
Qed.

Lemma dropTrailingSlashes_last s t : dropTrailingSlashes s <> t +:+ "/".
Proof.
  unfold dropTrailingSlashes. intros H.
  apply (f_equal String.rev) in H. rewrite rev_involutive, rev_append in H.
  exact (dropSlashes_head _ _ H).
Qed.

(** Trimming removes a suffix, respectively a prefix, and nothing else. *)
Lemma dropWhiteSpace_suffix backwards s :
  exists w, s = w +:+ dropWhiteSpace backwards s.
Proof.
  assert (H : forall n s, (String.length s < n)%nat ->
            exists w, s = w +:+ dropWhiteSpace backwards s).
  { clear s. induction n as [|n IH]; intros s Hlen; [lia|].
    destruct s as [|a s1]; [by exists ""|]. simpl in *.
    destruct (ws1 a).
    { destruct (IH s1) as [w Hw]; [lia|]. exists (String a w).
      rewrite app_cons. by f_equal. }
    destruct s1 as [|b s2]; [by exists ""|]. simpl in *.
    destruct (if backwards then ws2 b a else ws2 a b).
    { destruct (IH s2) as [w Hw]; [lia|]. exists (String a (String b w)).
      rewrite !app_cons. by do 2 f_equal. }
    destruct s2 as [|c s3]; [by exists ""|]. simpl in *.
    destruct (if backwards then ws3 c b a else ws3 a b c); [|by exists ""].
    destruct (IH s3) as [w Hw]; [lia|].
    exists (String a (String b (String c w))).
    rewrite !app_cons. by do 3 f_equal. }
  eauto.
Qed.

Lemma trimStart_suffix s : exists w, s = w +:+ trimStart s.
Proof. apply dropWhiteSpace_suffix. Qed.

Lemma trimEnd_prefix s : exists w, s = trimEnd s +:+ w.
Proof.
  unfold trimEnd. destruct (dropWhiteSpace_suffix true (String.rev s)) as [w Hw].
  exists (String.rev w). rewrite <- (rev_involutive s) at 1. rewrite Hw at 1.
  apply rev_append.
Qed.

(** ** URL construction *)

(** C9, as amended: the request URL is the base, trimmed of trailing white
    space and then of its trailing run of ['/'], followed by exactly
    ["/api/"], followed by the endpoint trimmed of leading white space and
    then of its leading run of ['/'].  The stripped base does not end in a
    separator and the stripped endpoint does not begin with one, so the
    [api] segment is joined to each by a single separator. *)
Theorem makeUrl_api_seam (baseUrl endpoint : string) :
  let base := dropTrailingSlashes (trimEnd baseUrl) in
  let path := dropSlashes (trimStart endpoint) in
  makeUrl baseUrl endpoint = base +:+ "/api/" +:+ path
  /\ (exists n, trimEnd baseUrl = base +:+ slashes n)
  /\ (exists n, trimStart endpoint = slashes n +:+ path)
  /\ (forall s, base <> s +:+ "/")
  /\ (forall s, path <> String "/" s).
Proof.
  cbv zeta. repeat split.
  - apply dropTrailingSlashes_run.
  - apply dropSlashes_run.
  - intros s. apply dropTrailingSlashes_last.
  - intros s. apply dropSlashes_head.
Qed.

(** C9, as stated, fails: the URL is not the base, one separator and the
    endpoint; the fixed segment [api] stands between them. *)
Lemma makeUrl_single_separator_counterexample :
  makeUrl "https://neo.example/" "/users" = "https://neo.example/api/users"
  /\ makeUrl "https://neo.example/" "/users"
     <> "https://neo.example" +:+ "/" +:+ "users".
Proof. split; [reflexivity | discriminate]. Qed.

Example makeUrl_trims :
  makeUrl "https://neo.example//  " "  //users/QQ:10001/logout"
  = "https://neo.example/api/users/QQ:10001/logout".
Proof. reflexivity. Qed.

(** ** The billing preview *)

Lemma push_app {A} (message : list A) (x : A) : push message x = (message ++ [x])%list.
Proof. reflexivity. Qed.

(** The final cost is the override when it is a non-zero number, else the
    discounted cost when there is a discount, else the total. *)
Lemma finalCost_precedence (res : BillingResponse.t) :
  finalCost res =
    let fallback :=
      match BillingResponse.discount res with
      | Some discount => DiscountInfo.finalCost discount
      | None => BillingInfo.totalCost (BillingResponse.billing res)
      end in
    match LogoutSession.costOverwrite (BillingResponse.session res) with
    | Some overwrite => if overwrite =? 0 then fallback else overwrite
    | None => fallback
    end.
Proof.
  unfold finalCost.
  destruct (LogoutSession.costOverwrite _) as [c|]; simpl; [|reflexivity].
  destruct (c =? 0); reflexivity.
Qed.

Lemma finalCost_overwrite (res : BillingResponse.t) (overwrite : Z) :
  LogoutSession.costOverwrite (BillingResponse.session res) = Some overwrite ->
  overwrite <> 0 ->
  finalCost res = overwrite.
Proof.
  intros H Hne. rewrite finalCost_precedence, H. simpl.
  destruct (Z.eqb_spec overwrite 0); [contradiction | reflexivity].
Qed.

Example finalCost_examples :
  finalCost (Sample.billingWith (Some 50) (Some Sample.discount80) []) = 50
  /\ finalCost (Sample.billingWith None (Some Sample.discount80) []) = 80
  /\ finalCost (Sample.billingWith None None []) = 100
  /\ finalCost (Sample.billingWith (Some 50) None []) = 50.
Proof. repeat split. Qed.

(** C2 at its failing input: with [totalCost = 100], [discount.finalCost = 80]
    and [costOverwrite = 0] the rendered final cost is 80, not the override:
    [if (res.session.costOverwrite)] takes a zero override for an absent
    one. *)
Theorem finalCost_zero_overwrite :
  let res := Sample.billingWith (Some 0) (Some Sample.discount80) [] in
  finalCost res = 80
  /\ In "结算价: 80 月饼" (formatBilling_message Utc.host res)
  /\ ~ In "结算价: 0 月饼" (formatBilling_message Utc.host res).
Proof.
  cbv zeta. split; [reflexivity|]. split.
  - vm_compute. tauto.
  - vm_compute. intros H.
    repeat (destruct H as [H|H]; [discriminate H|]). exact H.
Qed.

Lemma pushSegment_entry host message seg :
  pushSegment host message seg
  = (message ++ (if 0 <=? BillingSegment.cost seg
                 then segmentEntry host seg else []))%list.
Proof.
  unfold pushSegment, segmentEntry, push.
  destruct (0 <=? BillingSegment.cost seg).
  - rewrite <- !app_assoc. reflexivity.
  - symmetry. apply app_nil_r.
Qed.

Lemma forEach_pushSegment host segments message :
  fold_left (pushSegment host) segments message
  = (message
     ++ flat_map (segmentEntry host)
          (filter (fun seg => 0 <= BillingSegment.cost seg) segments))%list.
Proof.
  revert message. induction segments as [|seg segments IH]; intros message.
  - simpl. symmetry. apply app_nil_r.
  - simpl. rewrite IH, pushSegment_entry, filter_cons.
    destruct (Z.leb_spec 0 (BillingSegment.cost seg)) as [Hle|Hlt].
    + rewrite decide_True by exact Hle. simpl. rewrite <- app_assoc.
      reflexivity.
    + rewrite decide_False by lia. rewrite app_nil_r. reflexivity.
Qed.



(** The instance of the specification: of a segment of cost -5 and one of
    cost 10, only the second is rendered. *)
Example segments_example :
  pushSegments Utc.host ["计费区间:"]
    [Sample.segment "调整" (-5); Sample.segment "日间" 10]
  = [ "计费区间:"; "- 日间"; "  时段: 10:00:00 - 12:00:00";
      "  费用: 10 月饼 " ].
Proof. vm_compute. reflexivity. Qed.

(** ** The wallet presenter *)

Section SortByKey.

Context {A : Type} (key : A -> Z).

(** The comparator of a sort by [key]: the difference of the keys. *)
Local Abbreviation compare := (fun a b : A => key a - key b).

Lemma sort_insert_length x l :
  length (sort_insert compare x l) = S (length l).
Proof.
  induction l as [|y l IH]; [reflexivity|]. simpl.
  destruct (key x - key y <=? 0); simpl; auto.
Qed.

Lemma sort_length l : length (sort compare l) = length l.
Proof.
  induction l as [|x l IH]; [reflexivity|]. simpl.
  rewrite sort_insert_length. auto.
Qed.

Lemma sort_insert_Permutation x l : sort_insert compare x l ≡ₚ x :: l.
Proof.
  induction l as [|y l IH]; [reflexivity|]. simpl.
  destruct (key x - key y <=? 0); [reflexivity|].
  rewrite IH. apply Permutation_swap.
Qed.

(** [sort] rearranges and drops nothing. *)
Lemma sort_Permutation l : sort compare l ≡ₚ l.
Proof.
  induction l as [|x l IH]; [reflexivity|]. simpl.
  rewrite sort_insert_Permutation. by f_equiv.
Qed.

Lemma sort_insert_sorted x l :
  StronglySorted (fun a b => key a <= key b) l ->
  StronglySorted (fun a b => key a <= key b) (sort_insert compare x l).
Proof.
  induction 1 as [|y l Hl IH Hy]; simpl.
  - repeat constructor.
  - destruct (Z.leb_spec (key x - key y) 0) as [Hle|Hgt].
    + constructor; [by constructor|].
      constructor; [lia|].
      eapply List.Forall_impl; [|exact Hy]. simpl. intros; lia.
    + constructor; [exact IH|].
      rewrite sort_insert_Permutation. constructor; [lia | exact Hy].
Qed.

(** [sort] orders by the key. *)
Lemma sort_sorted l :
  StronglySorted (fun a b => key a <= key b) (sort compare l).
Proof.
  induction l as [|x l IH]; simpl; [constructor|].
  by apply sort_insert_sorted.
Qed.


End SortByKey.






(** The instance of the specification: of the expiries 2025-03-01,
    2025-01-15 and 2025-02-10 the report names 2025-01-15. *)
Example soonest_expiring_example :
  pushExpiring Utc.host [] Sample.expiringWallet
  = [LF +:+ "注意：您有 7 免费月饼将于 2025/01/15 00:00:00 过期。"].
Proof. vm_compute. reflexivity. Qed.

(** A tie goes to the asset that stands first in the list. *)
Example soonest_expiring_tie :
  pushExpiring Utc.host []
    (Sample.walletWith
       [ Sample.freeAsset 1 5 (Some Sample.feb10);
         Sample.freeAsset 2 7 None;
         Sample.freeAsset 3 9 (Some Sample.jan15);
         Sample.freeAsset 4 2 (Some Sample.jan15) ])
  = [LF +:+ "注意：您有 9 免费月饼将于 2025/01/15 00:00:00 过期。"].
Proof. vm_compute. reflexivity. Qed.

(** ** Identity resolution *)

Ltac run :=
  unfold bind, ret, throw, try_catch, kv_get, kv_set, kv_delete, Date_now,
    request, check, record, after; simpl.

Lemma truthy_str_Some (s : string) : s <> "" -> truthy_str (Some s) = true.
Proof.
  intros H. simpl. destruct (String.eqb_spec s ""); [contradiction|reflexivity].
Qed.

(** Without an explicit target the caller is the target. *)
Lemma resolvesTo_self context user env session :
  truthy_str user = false ->
  ActionContext.session context = Some session ->
  resolvesTo context user env (Session.userId session).
Proof.
  intros Huser Hs w. unfold getTargetUserId, session_userId.
  rewrite Huser, Hs. reflexivity.
Qed.

(** With an explicit target and the admin capability, the target is the
    second colon-separated field of the argument. *)
Lemma resolvesTo_admin context user env :
  truthy_str user = true ->
  permissions_check env (Config.admin (ActionContext.config context))
    (ActionContext.session context) = true ->
  resolvesTo context user env (split ":" (show_str user) !! 1%nat).
Proof.
  intros Huser Hcheck w. unfold getTargetUserId. rewrite Huser. run.
  rewrite Hcheck. reflexivity.
Qed.

Lemma getTargetUserId_denied context user env w :
  truthy_str user = true ->
  permissions_check env (Config.admin (ActionContext.config context))
    (ActionContext.session context) = false ->
  getTargetUserId context user env w = (Ok denied, w).
Proof.
  intros Huser Hcheck. unfold getTargetUserId. rewrite Huser. run.
  rewrite Hcheck. reflexivity.
Qed.

Lemma getTargetUserId_no_session context user env w :
  truthy_str user = false ->
  ActionContext.session context = None ->
  getTargetUserId context user env w = (Throw TypeError, w).
Proof.
  intros Huser Hs. unfold getTargetUserId, session_userId.
  rewrite Huser, Hs. reflexivity.
Qed.

(** Identity resolution reads the store and the remote API not at all. *)
Lemma getTargetUserId_cases context user env :
  (exists U, resolvesTo context user env U)
  \/ (forall w, getTargetUserId context user env w = (Ok denied, w))
  \/ (forall w, getTargetUserId context user env w = (Throw TypeError, w)).
Proof.
  destruct (truthy_str user) eqn:Huser.
  - destruct (permissions_check env
                (Config.admin (ActionContext.config context))
                (ActionContext.session context)) eqn:Hcheck.
    + left. eexists. by apply resolvesTo_admin.
    + right. left. intros w. by apply getTargetUserId_denied.
  - destruct (ActionContext.session context) as [s|] eqn:Hs.
    + left. eexists. by eapply resolvesTo_self.
    + right. right. intros w. by apply getTargetUserId_no_session.
Qed.

(** ** The logout command *)

Lemma handleLogoutCmd_denied host context user env w :
  getTargetUserId context user env w = (Ok denied, w) ->
  handleLogoutCmd host context user env w = (Ok "权限不足", w).
Proof. intros H. unfold handleLogoutCmd, bind. rewrite H. reflexivity. Qed.

Lemma handleLogoutCmd_thrown host context user env w e :
  getTargetUserId context user env w = (Throw e, w) ->
  handleLogoutCmd host context user env w = (Throw e, w).
Proof. intros H. unfold handleLogoutCmd, bind. rewrite H. reflexivity. Qed.

(** The confirmation step: the entry goes first, then the remote close is
    requested; its failure leaves the entry deleted. *)
Lemma handleLogoutCmd_confirming host context user env U w :
  resolvesTo context user env U ->
  confirming (kv w !! U) (now env) = true ->
  handleLogoutCmd host context user env w
  = (match http env RLogout POST (logoutUrl context U) NoBody with
     | Ok res => Ok (logoutReceipt host user U res)
     | Throw e => Throw e
     end,
     after w (delete U (kv w))
       [KvDelete U; Http POST (logoutUrl context U) NoBody]).
Proof.
  intros Hres Hc. unfold handleLogoutCmd, bind at 1. rewrite (Hres w).
  cbn [TargetUserId.error TargetUserId.userId truthy_str].
  run. rewrite Hc. unfold service.logout, logoutUrl. run.
  rewrite <- app_assoc.
  destruct (http env RLogout POST _ NoBody); reflexivity.
Qed.

(** A first request: the preview is fetched first, and the entry recorded
    only once the preview has arrived. *)
Lemma handleLogoutCmd_preview host context user env U w :
  resolvesTo context user env U ->
  confirming (kv w !! U) (now env) = false ->
  handleLogoutCmd host context user env w
  = match http env RBilling GET (billingUrl context U) NoBody with
    | Ok billingRes =>
        (Ok (logoutPreview user U (formatBilling host billingRes)),
         after w (<[U := now env]> (kv w))
           [Http GET (billingUrl context U) NoBody; KvSet U (now env)])
    | Throw e =>
        (Throw e, after w (kv w) [Http GET (billingUrl context U) NoBody])
    end.
Proof.
  intros Hres Hc. unfold handleLogoutCmd, bind at 1. rewrite (Hres w).
  cbn [TargetUserId.error TargetUserId.userId truthy_str].
  run. rewrite Hc. unfold service.billing, billingUrl. run.
  destruct (http env RBilling GET _ NoBody); [|reflexivity].
  rewrite <- app_assoc. reflexivity.
Qed.

Lemma confirming_None now : confirming None now = false.
Proof. reflexivity. Qed.

Lemma confirming_Some pendingLogout now :
  confirming (Some pendingLogout) now
  = negb (pendingLogout =? 0) && (now - pendingLogout <? 60 * 1000).
Proof. reflexivity. Qed.

(** An entry whose age has reached the 60000 ms never confirms. *)
Lemma confirming_stale pendingLogout now :
  60 * 1000 <= now - pendingLogout ->
  confirming (Some pendingLogout) now = false.
Proof.
  intros H. rewrite confirming_Some.
  destruct (Z.ltb_spec (now - pendingLogout) (60 * 1000)); [lia|].
  apply andb_false_r.
Qed.

Lemma confirming_live pendingLogout now :
  pendingLogout <> 0 ->
  now - pendingLogout < 60 * 1000 ->
  confirming (Some pendingLogout) now = true.
Proof.
  intros H0 H. rewrite confirming_Some.
  destruct (Z.eqb_spec pendingLogout 0); [contradiction|].
  destruct (Z.ltb_spec (now - pendingLogout) (60 * 1000)); [reflexivity|lia].
Qed.

(** ** The two-step confirmation *)



(** C10: in the confirmation step the entry is deleted before the remote
    close is requested.  When that request fails the handler throws, the
    entry stays deleted, and the next logout of that user, whenever it comes,
    takes the preview branch: it requests the billing preview and no remote
    close. *)
Theorem failed_close_consumes_confirmation (host : Host)
    (context : ActionContext.t) (user U : JsStr) (env env' : Env) (w : World)
    (e : ApiError.t) :
  resolvesTo context user env U ->
  resolvesTo context user env' U ->
  confirming (kv w !! U) (now env) = true ->
  http env RLogout POST (logoutUrl context U) NoBody = Throw e ->
  let confirmation := handleLogoutCmd host context user env w in
  let next := handleLogoutCmd host context user env' (snd confirmation) in
  confirmation
  = (Throw e,
     after w (delete U (kv w))
       [KvDelete U; Http POST (logoutUrl context U) NoBody])
  /\ kv (snd confirmation) !! U = None
  /\ confirming (kv (snd confirmation) !! U) (now env') = false
  /\ exists events,
       trace (snd next)
       = (trace (snd confirmation)
          ++ Http GET (billingUrl context U) NoBody :: events)%list
       /\ Forall (fun ev => ev = KvSet U (now env')) events.
Proof.
  intros R R' Hlive Hfail. cbv zeta.
  rewrite (handleLogoutCmd_confirming host context user env U w R Hlive), Hfail.
  cbn [snd]. set (w1 := after w (delete U (kv w)) _).
  assert (Hgone : kv w1 !! U = None).
  { subst w1. cbn [kv after]. apply lookup_delete_eq. }
  assert (Hidle : confirming (kv w1 !! U) (now env') = false).
  { rewrite Hgone. reflexivity. }
  repeat split; try assumption.
  rewrite (handleLogoutCmd_preview host context user env' U w1 R' Hidle).
  destruct (http env' RBilling GET (billingUrl context U) NoBody).
  - exists [KvSet U (now env')]. split; [reflexivity|].
    constructor; [reflexivity | constructor].
  - exists []. split; [reflexivity | constructor].
Qed.

(** C4, as amended: what an invocation of the logout handler does to the
    confirmation store, case by case.  Rejected by identity resolution, it
    leaves the world as it was.  In the confirmation step it deletes the
    target's entry and requests the remote close, whatever the outcome of
    that request.  On a first request it asks for the billing preview; when
    the preview arrives it records the clock reading for the target, and
    when the preview fails it leaves the store as it was. *)
Theorem logout_store_update (host : Host) (context : ActionContext.t)
    (user : JsStr) (env : Env) (w : World) :
  let w' := snd (handleLogoutCmd host context user env w) in
  match fst (getTargetUserId context user env w) with
  | Throw _ => w' = w
  | Ok target =>
      let U := TargetUserId.userId target in
      if truthy_str (TargetUserId.error target) then w' = w
      else if confirming (kv w !! U) (now env) then
        w' = after w (delete U (kv w))
               [KvDelete U; Http POST (logoutUrl context U) NoBody]
      else
        match http env RBilling GET (billingUrl context U) NoBody with
        | Ok _ =>
            w' = after w (<[U := now env]> (kv w))
                   [Http GET (billingUrl context U) NoBody;
                    KvSet U (now env)]
        | Throw _ =>
            w' = after w (kv w) [Http GET (billingUrl context U) NoBody]
        end
  end.
Proof.
  cbv zeta.
  destruct (getTargetUserId_cases context user env) as [[U R]|[D|T]].
  - rewrite (R w). cbn [fst TargetUserId.error TargetUserId.userId truthy_str].
    destruct (confirming (kv w !! U) (now env)) eqn:Hc.
    + rewrite (handleLogoutCmd_confirming host context user env U w R Hc).
      reflexivity.
    + rewrite (handleLogoutCmd_preview host context user env U w R Hc).
      destruct (http env RBilling GET (billingUrl context U) NoBody);
        reflexivity.
  - rewrite (handleLogoutCmd_denied host context user env w (D w)), (D w).
    reflexivity.
  - rewrite (handleLogoutCmd_thrown host context user env w _ (T w)), (T w).
    reflexivity.
Qed.

(** ** Command orchestration *)

Lemma mapM_itemLine_world host (l : list UserAsset.t) env w :
  snd (mapM (itemLine host) l env w) = w.
Proof.
  induction l as [|x l IH]; [reflexivity|]. simpl. unfold bind at 1.
  unfold itemLine at 1.
  destruct (UserAsset.asset x); [|reflexivity].
  destruct (UserAsset.expireAt x); run;
    (destruct (mapM (itemLine host) l env w) as [[ys|e] w'] eqn:E;
     simpl in IH; subst w'; reflexivity).
Qed.

(** A handler whose identity resolution is rejected replies with the fixed
    message and touches nothing. *)
Lemma handler_denied host cmd context user amount env w :
  getTargetUserId context user env w = (Ok denied, w) ->
  handler host cmd context (user, amount) env w = (Ok "权限不足", w).
Proof.
  intros D. destruct cmd; simpl;
    [ unfold handleRegisterCmd | unfold handleLoginCmd
    | unfold handleLogoutCmd | unfold handleWalletCmd
    | unfold handleBillingCmd | unfold handleItemsCmd
    | unfold handleWalletAdd | unfold handleWalletDeduct
    | unfold handleCostOverwrite ];
    unfold bind at 1; rewrite D; reflexivity.
Qed.





(** The wrapper turns every outcome of the handler into a reply. *)
Lemma handleAction_total host {A} (action : Argv.t -> A -> M string)
    argv args env w :
  exists message,
    handleAction host action argv args env w
    = (Ok message, snd (action argv args env w)).
Proof.
  unfold handleAction, bind, try_catch.
  destruct (action argv args env w) as [[message|e] w']; cbn [snd].
  - eexists. reflexivity.
  - destruct (truthy_str (apiMessage e)); eexists; reflexivity.
Qed.

(** Every registered command replies with a string. *)
Corollary apply_replies (host : Host) (config : Config.t) (cmd : Command)
    (argv : Argv.t) (args : JsStr * JsStr) (env : Env) (w : World) :
  exists message w', apply host config cmd argv args env w = (Ok message, w').
Proof.
  unfold apply, createAction.
  match goal with
  | |- context [handleAction host ?action argv args env w] =>
      destruct (handleAction_total host action argv args env w) as [message E]
  end.
  rewrite E. eauto.
Qed.



(** ** Instances on concrete data

    The caller is the user 10001 of [Sample.context]; the host is
    [Utc.host]; the remote API is [Sample.up] or [Sample.down]. *)



Lemma failed_close_consumes_confirmation_witness :
  let U := Some "10001" in
  let t := 1736935200000 in
  let w := {| kv := {[ U := t ]}; trace := [] |} in
  let env := Sample.env (t + 30000) false Sample.down in
  let env' := Sample.env (t + 30001) false Sample.up in
  let confirmation := handleLogoutCmd Utc.host Sample.context None env w in
  let next := handleLogoutCmd Utc.host Sample.context None env' (snd confirmation) in
  (confirming (kv w !! U) (now env) = true
   /\ http env RLogout POST (logoutUrl Sample.context U) NoBody
      = Throw Sample.rejected)
  /\ (fst confirmation = Throw Sample.rejected
      /\ kv (snd confirmation) !! U = None
      /\ trace (snd confirmation)
         = [ KvDelete U;
             Http POST "https://neo.example/api/users/QQ:10001/logout" NoBody ]
      /\ confirming (kv (snd confirmation) !! U) (now env') = false).
Proof.
  cbv zeta.
  assert (R : forall now http,
    resolvesTo Sample.context None (Sample.env now false http) (Some "10001")).
  { intros now http w. reflexivity. }
  split.
  { split; reflexivity. }
  destruct (failed_close_consumes_confirmation Utc.host Sample.context None
              (Some "10001")
              (Sample.env (1736935200000 + 30000) false Sample.down)
              (Sample.env (1736935200000 + 30001) false Sample.up)
              {| kv := {[ Some "10001" := 1736935200000 ]}; trace := [] |}
              Sample.rejected)
    as (E & Hgone & Hidle & _);
    [ apply R | apply R | reflexivity | reflexivity | ].
  split; [rewrite E; reflexivity|]. split; [exact Hgone|].
  split; [rewrite E; reflexivity | exact Hidle].
Defined.

(** C4, as stated, fails: the billing preview of a first request is
    refused, the handler throws, and the stale entry of the user is neither
    deleted nor refreshed; the only event of the invocation is the remote
    call. *)
Lemma logout_failed_preview_counterexample :
  let U := Some "10001" in
  let w := {| kv := {[ U := 1000 ]}; trace := [] |} in
  let env := Sample.env 1736935200000 false Sample.down in
  let result := handleLogoutCmd Utc.host Sample.context None env w in
  fst result = Throw Sample.rejected
  /\ kv (snd result) = kv w
  /\ kv (snd result) !! U = Some 1000
  /\ trace (snd result)
     = [Http GET "https://neo.example/api/users/QQ:10001/billing" NoBody].
Proof. cbv zeta. repeat split. Qed.



(** The wrapper on concrete handlers: a rejected logout is reported with
    the API's message, a [TypeError] with the fixed one, each behind the
    quote marker. *)
Example handleAction_examples :
  let env := Sample.env 1736935200000 false Sample.down in
  fst (apply Utc.host Sample.config cmd_logout Sample.argv (None, None) env
         Sample.world0)
  = Ok ("<quote id=" +:+ DQUOTE +:+ "m-77" +:+ DQUOTE +:+ "/>用户未入场")
  /\ fst (apply Utc.host Sample.config cmd_logout {| Argv.session := None |}
            (None, None) env Sample.world0)
     = Ok "操作失败，发生了未知错误。".
Proof. cbv zeta. split; reflexivity. Qed.

(** The end-to-end preview and receipt of the sample session. *)
Example logout_replies :
  let t := 1736935200000 in
  let first :=
    handleLogoutCmd Utc.host Sample.context None (Sample.env t false Sample.up)
      Sample.world0 in
  let second :=
    handleLogoutCmd Utc.host Sample.context None
      (Sample.env (t + 30000) false Sample.up) (snd first) in
  fst first
  = Ok (join LF [
      "--- 账单详情 ---";
      "入场: 2025/01/15 10:00:00";
      "结算: 2025/01/15 12:00:00";
      "---";
      "计费价: 100 月饼";
      "  -「夜间券」: -20 月饼";
      "结算价: 80 月饼";
      "---";
      "当前余额: 120 月饼";
      "扣款后: 40 月饼";
      "---";
      "计费区间:";
      "- 日间";
      "  时段: 10:00:00 - 12:00:00";
      "  费用: 100 月饼 ";
      "";
      "---";
      "⚠️ 这是您的账单预览。请在60秒内再次输入 /logout 以确认登出。" ])
  /\ fst second
     = Ok (join LF [
         "✅ 退场成功";
         "入场时间: 2025/01/15 10:00:00";
         "离场时间: 2025/01/15 12:00:00";
         "消费: 80 月饼" ]).
Proof. cbv zeta. split; vm_compute; reflexivity. Qed.

(** * Further properties of the code *)

(** ** URL construction *)

Lemma dropSlashes_slashes n s : dropSlashes (slashes n +:+ s) = dropSlashes s.
Proof. induction n as [|n IH]; [reflexivity | exact IH]. Qed.

Lemma dropWhiteSpace_slash backwards s :
  dropWhiteSpace backwards (String "/" s) = String "/" s.
Proof.
  destruct s as [|b [|c s]]; [reflexivity| |].
  - destruct backwards; [|reflexivity]. simpl. unfold ws2. simpl.
    rewrite andb_false_r. reflexivity.
  - destruct backwards; [|reflexivity]. simpl. unfold ws2, ws3. simpl.
    rewrite !andb_false_r. reflexivity.
Qed.

Lemma trimStart_slashes n s :
  trimStart s = s -> trimStart (slashes n +:+ s) = slashes n +:+ s.
Proof.
  destruct n as [|n]; [auto|]. intros _. apply dropWhiteSpace_slash.
Qed.

Lemma trimEnd_slashes n s :
  trimEnd s = s -> trimEnd (s +:+ slashes n) = s +:+ slashes n.
Proof.
  destruct n as [|n]; [by rewrite app_empty_r|]. intros _.
  unfold trimEnd.
  assert (H : exists rest,
            String.rev (s +:+ slashes (S n)) = String "/" rest).
  { rewrite rev_append, rev_slashes. eexists. reflexivity. }
  destruct H as [rest Hrest].
  rewrite Hrest, dropWhiteSpace_slash, <- Hrest. apply rev_involutive.
Qed.

Lemma dropTrailingSlashes_slashes n s :
  dropTrailingSlashes (s +:+ slashes n) = dropTrailingSlashes s.
Proof.
  unfold dropTrailingSlashes.
  rewrite rev_append, rev_slashes, dropSlashes_slashes. reflexivity.
Qed.

(** X1: slashes at the seam do not matter.  For a base without trailing
    white space and an endpoint without leading white space, any number of
    slashes appended to the base or put before the endpoint gives the same
    URL. *)
Theorem makeUrl_slash_insensitive (baseUrl endpoint : string) (n m : nat) :
  trimEnd baseUrl = baseUrl ->
  trimStart endpoint = endpoint ->
  makeUrl (baseUrl +:+ slashes n) (slashes m +:+ endpoint)
  = makeUrl baseUrl endpoint.
Proof.
  intros Hb He. unfold makeUrl.
  rewrite (trimEnd_slashes n baseUrl Hb), (trimStart_slashes m endpoint He).
  rewrite dropTrailingSlashes_slashes, dropSlashes_slashes, Hb, He.
  reflexivity.
Qed.

Lemma makeUrl_slash_insensitive_witness :
  (trimEnd "https://neo.example" = "https://neo.example"
   /\ trimStart "users" = "users")
  /\ makeUrl "https://neo.example///" "//users"
     = makeUrl "https://neo.example" "users".
Proof.
  split; [split; reflexivity|].
  exact (makeUrl_slash_insensitive "https://neo.example" "users" 3 2
           eq_refl eq_refl).
Defined.

(** ** Identity resolution *)

Lemma split_go_plain sep cur s :
  occurs sep s = false -> split_go sep cur s = [String.rev cur +:+ s].
Proof.
  revert cur. induction s as [|a s IH]; intros cur H; simpl.
  - by rewrite app_empty_r.
  - simpl in H. apply orb_false_iff in H as [Ha Hs]. rewrite Ha.
    rewrite (IH _ Hs), rev_cons, app_assoc3. reflexivity.
Qed.

Lemma split_go_field sep cur p rest :
  occurs sep p = false ->
  split_go sep cur (p +:+ String sep rest)
  = (String.rev cur +:+ p) :: split_go sep "" rest.
Proof.
  revert cur. induction p as [|a p IH]; intros cur H.
  - change ("" +:+ String sep rest) with (String sep rest). simpl.
    rewrite Ascii.eqb_refl, app_empty_r. reflexivity.
  - simpl in H. apply orb_false_iff in H as [Ha Hp].
    rewrite app_cons. simpl. rewrite Ha, (IH _ Hp), rev_cons, app_assoc3.
    reflexivity.
Qed.

(** X2: for an explicit target of the form [platform:id], neither part
    holding a colon, a caller who passes the admin check acts on [id]. *)
Theorem target_of_platform_id (context : ActionContext.t) (platform id : string)
    (env : Env) (w : World) :
  occurs ":" platform = false ->
  occurs ":" id = false ->
  permissions_check env (Config.admin (ActionContext.config context))
    (ActionContext.session context) = true ->
  getTargetUserId context (Some (platform +:+ ":" +:+ id)) env w
  = (Ok {| TargetUserId.error := None; TargetUserId.userId := Some id |}, w).
Proof.
  intros Hp Hid Hcheck.
  assert (Huser : truthy_str (Some (platform +:+ ":" +:+ id)) = true).
  { apply truthy_str_Some. destruct platform; discriminate. }
  rewrite (resolvesTo_admin context _ env Huser Hcheck w).
  cbn [show_str]. unfold split.
  change (":" +:+ id) with (String ":" id).
  rewrite (split_go_field ":" "" platform id Hp), (split_go_plain ":" "" id Hid).
  reflexivity.
Qed.

Lemma target_of_platform_id_witness :
  (occurs ":" "onebot" = false /\ occurs ":" "10002" = false)
  /\ getTargetUserId Sample.context (Some "onebot:10002")
       (Sample.env 1736935200000 true Sample.up) Sample.world0
     = (Ok {| TargetUserId.error := None;
              TargetUserId.userId := Some "10002" |}, Sample.world0).
Proof.
  split; [split; reflexivity|].
  exact (target_of_platform_id Sample.context "onebot" "10002"
           (Sample.env 1736935200000 true Sample.up) Sample.world0
           eq_refl eq_refl eq_refl).
Defined.

(** X3: an explicit target without a colon resolves, for a caller who
    passes the admin check, to the undefined identity, and the remote call is
    made for the user named [undefined]. *)
Theorem target_without_colon (host : Host) (context : ActionContext.t)
    (user : string) (env : Env) (w : World) :
  user <> "" ->
  occurs ":" user = false ->
  permissions_check env (Config.admin (ActionContext.config context))
    (ActionContext.session context) = true ->
  getTargetUserId context (Some user) env w
  = (Ok {| TargetUserId.error := None; TargetUserId.userId := None |}, w)
  /\ trace (snd (handleWalletCmd host context (Some user) env w))
     = (trace w
        ++ [Http GET
              (service.endpoint context "/users/QQ:undefined/wallet?details=true")
              NoBody])%list.
Proof.
  intros Hne Hcolon Hcheck.
  pose proof (resolvesTo_admin context (Some user) env
                (truthy_str_Some user Hne) Hcheck) as R.
  cbn [show_str] in R. unfold split in R.
  rewrite (split_go_plain ":" "" user Hcolon) in R. cbn in R.
  split; [apply R|].
  unfold handleWalletCmd, bind at 1. rewrite (R w).
  cbn [TargetUserId.error TargetUserId.userId truthy_str].
  unfold service.wallet. run.
  destruct (http env RWallet GET _ _); reflexivity.
Qed.

Lemma target_without_colon_witness :
  ("10002" <> "" /\ occurs ":" "10002" = false)
  /\ trace (snd (handleWalletCmd Utc.host Sample.context (Some "10002")
                   (Sample.env 1736935200000 true Sample.up) Sample.world0))
     = [Http GET "https://neo.example/api/users/QQ:undefined/wallet?details=true"
          NoBody].
Proof.
  split; [split; [discriminate | reflexivity]|].
  exact (proj2 (target_without_colon Utc.host Sample.context "10002"
                  (Sample.env 1736935200000 true Sample.up) Sample.world0
                  ltac:(discriminate) eq_refl eq_refl)).
Defined.

(** ** The confirmation store and the other commands *)

Lemma handler_thrown host cmd context user amount env w e :
  getTargetUserId context user env w = (Throw e, w) ->
  handler host cmd context (user, amount) env w = (Throw e, w).
Proof.
  intros T. destruct cmd; simpl;
    [ unfold handleRegisterCmd | unfold handleLoginCmd
    | unfold handleLogoutCmd | unfold handleWalletCmd
    | unfold handleBillingCmd | unfold handleItemsCmd
    | unfold handleWalletAdd | unfold handleWalletDeduct
    | unfold handleCostOverwrite ];
    unfold bind at 1; rewrite T; reflexivity.
Qed.

Ltac resolved R w :=
  unfold bind at 1; rewrite (R w);
  cbn [TargetUserId.error TargetUserId.userId truthy_str].

Lemma handler_store_resolved host cmd context user amount env U w :
  cmd <> cmd_logout ->
  resolvesTo context user env U ->
  kv (snd (handler host cmd context (user, amount) env w)) = kv w.
Proof.
  intros Hcmd R. destruct cmd; simpl; try congruence.
  - unfold handleRegisterCmd. resolved R w. unfold service.register. run.
    destruct (http env ROpaque POST _ _); reflexivity.
  - unfold handleLoginCmd. resolved R w.
    unfold service.login, service.getLock. run.
    destruct (http env ROpaque POST _ _); [|reflexivity].
    destruct (http env RLock GET _ _); [destruct (truthy_str user)|];
      reflexivity.
  - unfold handleWalletCmd. resolved R w. unfold service.wallet. run.
    destruct (http env RWallet GET _ _); reflexivity.
  - unfold handleBillingCmd. resolved R w. unfold service.billing. run.
    destruct (http env RBilling GET _ _); [destruct (truthy_str user)|];
      reflexivity.
  - unfold handleItemsCmd. resolved R w.
    unfold service.assets. unfold bind at 1. unfold request, record.
    destruct (http env RAssets GET _ _) as [userAssets|e]; [|reflexivity].
    destruct (length userAssets =? 0)%nat; [reflexivity|].
    unfold bind.
    match goal with
    | |- context [mapM (itemLine host) userAssets env ?w1] =>
        pose proof (mapM_itemLine_world host userAssets env w1) as Hw;
        destruct (mapM (itemLine host) userAssets env w1) as [[ys|e] w2]
    end; simpl in Hw; subst; reflexivity.
  - unfold handleWalletAdd. resolved R w.
    destruct (truthy_str amount); cbn [negb]; [|reflexivity].
    unfold service.walletAdd. run.
    destruct (http env RBalance POST _ _); reflexivity.
  - unfold handleWalletDeduct. resolved R w.
    destruct (truthy_str amount); cbn [negb]; [|reflexivity].
    unfold service.walletDel. run.
    destruct (http env RBalance POST _ _); reflexivity.
  - unfold handleCostOverwrite. resolved R w.
    destruct (truthy_str amount); cbn [negb]; [|reflexivity].
    unfold service.costOverwrite. run.
    destruct (http env ROpaque POST _ _); reflexivity.
Qed.

(** X4: of the commands that take a target user only [logout] writes the
    confirmation store: whatever the arguments, the caller's rights and the
    remote API's answers, every other command leaves the store as it was. *)
Theorem only_logout_writes_store (host : Host) (cmd : Command)
    (context : ActionContext.t) (user amount : JsStr) (env : Env) (w : World) :
  cmd <> cmd_logout ->
  kv (snd (handler host cmd context (user, amount) env w)) = kv w.
Proof.
  intros Hcmd.
  destruct (getTargetUserId_cases context user env) as [[U R]|[D|T]].
  - by eapply handler_store_resolved.
  - rewrite (handler_denied host cmd context user amount env w (D w)).
    reflexivity.
  - rewrite (handler_thrown host cmd context user amount env w _ (T w)).
    reflexivity.
Qed.

Lemma only_logout_writes_store_witness :
  let w := {| kv := {[ Some "10001" := 1736935200000 ]}; trace := [] |} in
  cmd_billing <> cmd_logout
  /\ kv (snd (handler Utc.host cmd_billing Sample.context (None, None)
                (Sample.env 1736935230000 false Sample.up) w))
     = kv w.
Proof.
  cbv zeta. split; [discriminate|].
  exact (only_logout_writes_store Utc.host cmd_billing Sample.context None None
           (Sample.env 1736935230000 false Sample.up) _
           ltac:(discriminate)).
Defined.

(** X5: a logout for the user [U] leaves the pending entry of every other
    user as it was, in both branches and whatever the remote API answers. *)
Theorem logout_leaves_other_users (host : Host) (context : ActionContext.t)
    (user U V : JsStr) (env : Env) (w : World) :
  resolvesTo context user env U ->
  V <> U ->
  kv (snd (handleLogoutCmd host context user env w)) !! V = kv w !! V.
Proof.
  intros R Hne. destruct (confirming (kv w !! U) (now env)) eqn:Hc.
  - rewrite (handleLogoutCmd_confirming host context user env U w R Hc).
    cbn [snd kv after]. apply lookup_delete_ne. congruence.
  - rewrite (handleLogoutCmd_preview host context user env U w R Hc).
    destruct (http env RBilling GET _ _); cbn [snd kv after]; [|reflexivity].
    apply lookup_insert_ne. congruence.
Qed.

Lemma logout_leaves_other_users_witness :
  let w := {| kv := {[ Some "10001" := 1736935200000 ]}; trace := [] |} in
  let env := Sample.env 1736935210000 true Sample.up in
  (resolvesTo Sample2.adminContext (Some "onebot:10002") env (Some "10002")
   /\ Some "10001" <> Some "10002")
  /\ kv (snd (handleLogoutCmd Utc.host Sample2.adminContext
                (Some "onebot:10002") env w)) !! Some "10001"
     = Some 1736935200000.
Proof.
  cbv zeta.
  assert (R : resolvesTo Sample2.adminContext (Some "onebot:10002")
                (Sample.env 1736935210000 true Sample.up) (Some "10002")).
  { intros w. reflexivity. }
  split; [split; [exact R | discriminate]|].
  rewrite (logout_leaves_other_users Utc.host Sample2.adminContext
             (Some "onebot:10002") (Some "10002") (Some "10001")
             (Sample.env 1736935210000 true Sample.up) _ R
             ltac:(discriminate)).
  reflexivity.
Defined.

(** X6: the confirmation window, to the millisecond.  After a first logout
    of [U] at the clock reading [t], a second one at [t + d] deletes the entry
    and requests the remote close exactly when [d < 60000]; a clock that has
    gone backwards ([d < 0]) confirms as well. *)
Theorem confirmation_window (host : Host) (context : ActionContext.t)
    (user U : JsStr) (env1 env2 : Env) (w : World) (d : Z)
    (b1 : BillingResponse.t) :
  kv w !! U = None ->
  now env1 <> 0 ->
  now env2 = now env1 + d ->
  resolvesTo context user env1 U ->
  resolvesTo context user env2 U ->
  http env1 RBilling GET (billingUrl context U) NoBody = Ok b1 ->
  let first := handleLogoutCmd host context user env1 w in
  let second := handleLogoutCmd host context user env2 (snd first) in
  exists events,
    trace (snd second) = (trace (snd first) ++ events)%list
    /\ (In (Http POST (logoutUrl context U) NoBody) events <-> d < 60 * 1000)
    /\ (In (KvDelete U) events <-> d < 60 * 1000)
    /\ (In (KvSet U (now env2)) events -> 60 * 1000 <= d).
Proof.
  intros Hfresh Ht Hd R1 R2 B1. cbv zeta.
  rewrite (handleLogoutCmd_preview host context user env1 U w R1)
    by (rewrite Hfresh; reflexivity).
  rewrite B1. cbn [snd].
  set (w1 := after w (<[U := now env1]> (kv w)) _).
  assert (Hlook : kv w1 !! U = Some (now env1)).
  { subst w1. cbn [kv after]. apply lookup_insert_eq. }
  destruct (Z.lt_ge_cases d (60 * 1000)) as [Hlt|Hge].
  - assert (Hc : confirming (kv w1 !! U) (now env2) = true).
    { rewrite Hlook. apply confirming_live; [exact Ht | lia]. }
    rewrite (handleLogoutCmd_confirming host context user env2 U w1 R2 Hc).
    exists [KvDelete U; Http POST (logoutUrl context U) NoBody].
    split; [reflexivity|]. split; [|split].
    + split; [intros _; exact Hlt | intros _; right; left; reflexivity].
    + split; [intros _; exact Hlt | intros _; left; reflexivity].
    + intros [H|[H|[]]]; discriminate H.
  - assert (Hc : confirming (kv w1 !! U) (now env2) = false).
    { rewrite Hlook. apply confirming_stale. lia. }
    rewrite (handleLogoutCmd_preview host context user env2 U w1 R2 Hc).
    assert (Hno : forall events,
      Forall (fun ev => match ev with
                        | Http GET _ _ | KvSet _ _ => True
                        | _ => False
                        end) events ->
      (In (Http POST (logoutUrl context U) NoBody) events <-> d < 60 * 1000)
      /\ (In (KvDelete U) events <-> d < 60 * 1000)
      /\ (In (KvSet U (now env2)) events -> 60 * 1000 <= d)).
    { intros events Hev. rewrite List.Forall_forall in Hev.
      split; [|split].
      - split; [intros H; destruct (Hev _ H) | lia].
      - split; [intros H; destruct (Hev _ H) | lia].
      - intros _. exact Hge. }
    destruct (http env2 RBilling GET (billingUrl context U) NoBody).
    + exists [Http GET (billingUrl context U) NoBody; KvSet U (now env2)].
      split; [reflexivity|]. apply Hno. repeat constructor.
    + exists [Http GET (billingUrl context U) NoBody].
      split; [reflexivity|]. apply Hno. repeat constructor.
Qed.

Lemma confirmation_window_witness :
  let U := Some "10001" in
  let t := 1736935200000 in
  let env1 := Sample.env t false Sample.up in
  let env2 := Sample.env (t + 59999) false Sample.up in
  let first := handleLogoutCmd Utc.host Sample.context None env1 Sample.world0 in
  let second := handleLogoutCmd Utc.host Sample.context None env2 (snd first) in
  (kv Sample.world0 !! U = None /\ now env1 <> 0
   /\ now env2 = now env1 + 59999)
  /\ exists events,
       trace (snd second) = (trace (snd first) ++ events)%list
       /\ In (KvDelete U) events.
Proof.
  cbv zeta.
  assert (R : forall now,
    resolvesTo Sample.context None (Sample.env now false Sample.up)
      (Some "10001")).
  { intros now w. reflexivity. }
  split.
  { split; [reflexivity|]. split; [simpl; lia | reflexivity]. }
  destruct (confirmation_window Utc.host Sample.context None (Some "10001")
              (Sample.env 1736935200000 false Sample.up)
              (Sample.env (1736935200000 + 59999) false Sample.up)
              Sample.world0 59999 (Sample.answer RBilling))
    as (events & Htrace & _ & Hdel & _);
    [ reflexivity | simpl; lia | reflexivity | apply R | apply R
    | reflexivity | ].
  exists events. split; [exact Htrace|]. apply Hdel. lia.
Defined.

(** X7: the pending entry belongs to the target user, not to the caller.
    A preview requested by one caller for [U] is confirmed by the next logout
    for [U] within the window, whoever makes it: an admin's preview on the
    user's behalf by the user's own logout, and the other way round. *)
Theorem confirmation_is_per_target (host : Host)
    (contextA contextB : ActionContext.t) (userA userB U : JsStr)
    (envA envB : Env) (w : World) (b : BillingResponse.t) :
  kv w !! U = None ->
  now envA <> 0 ->
  now envB - now envA < 60 * 1000 ->
  resolvesTo contextA userA envA U ->
  resolvesTo contextB userB envB U ->
  http envA RBilling GET (billingUrl contextA U) NoBody = Ok b ->
  let preview := handleLogoutCmd host contextA userA envA w in
  let confirmation := handleLogoutCmd host contextB userB envB (snd preview) in
  snd confirmation
  = after (snd preview) (kv w)
      [KvDelete U; Http POST (logoutUrl contextB U) NoBody].
Proof.
  intros Hfresh Ht Hd RA RB B. cbv zeta.
  rewrite (handleLogoutCmd_preview host contextA userA envA U w RA)
    by (rewrite Hfresh; reflexivity).
  rewrite B. cbn [snd].
  set (w1 := after w (<[U := now envA]> (kv w)) _).
  rewrite (handleLogoutCmd_confirming host contextB userB envB U w1 RB).
  - subst w1. cbn [snd kv after]. rewrite delete_insert_id by exact Hfresh.
    reflexivity.
  - subst w1. cbn [kv after]. rewrite lookup_insert_eq.
    by apply confirming_live.
Qed.

Lemma confirmation_is_per_target_witness :
  let U := Some "10001" in
  let t := 1736935200000 in
  let envA := Sample.env t true Sample.up in
  let envB := Sample.env (t + 5000) false Sample.up in
  let preview :=
    handleLogoutCmd Utc.host Sample2.adminContext (Some "onebot:10001") envA
      Sample.world0 in
  let confirmation :=
    handleLogoutCmd Utc.host Sample.context None envB (snd preview) in
  (resolvesTo Sample2.adminContext (Some "onebot:10001") envA U
   /\ resolvesTo Sample.context None envB U
   /\ now envB - now envA < 60 * 1000)
  /\ trace (snd confirmation)
     = [ Http GET "https://neo.example/api/users/QQ:10001/billing" NoBody;
         KvSet U t;
         KvDelete U;
         Http POST "https://neo.example/api/users/QQ:10001/logout" NoBody ].
Proof.
  cbv zeta.
  assert (RA : resolvesTo Sample2.adminContext (Some "onebot:10001")
                 (Sample.env 1736935200000 true Sample.up) (Some "10001")).
  { intros w. reflexivity. }
  assert (RB : resolvesTo Sample.context None
                 (Sample.env (1736935200000 + 5000) false Sample.up)
                 (Some "10001")).
  { intros w. reflexivity. }
  split; [split; [exact RA | split; [exact RB | simpl; lia]]|].
  rewrite (confirmation_is_per_target Utc.host Sample2.adminContext
             Sample.context (Some "onebot:10001") None (Some "10001")
             (Sample.env 1736935200000 true Sample.up)
             (Sample.env (1736935200000 + 5000) false Sample.up)
             Sample.world0 (Sample.answer RBilling));
    [ reflexivity | reflexivity | simpl; lia | simpl; lia | exact RA
    | exact RB | reflexivity ].
Defined.

(** ** The handlers and the remote API *)

(** X8: [login] asks for the door password only after the remote login has
    succeeded.  When the login request fails the handler throws that error
    and has issued the login request alone; when it succeeds the door
    password is requested next, and its failure is thrown in turn. *)
Theorem login_then_door_password (context : ActionContext.t) (user U : JsStr)
    (env : Env) (w : World) :
  resolvesTo context user env U ->
  let loginUrl :=
    service.endpoint context ("/users/QQ:" +:+ show_str U +:+ "/login") in
  let lockUrl :=
    service.endpoint context
      ("/users/QQ:" +:+ show_str U +:+ "/door-password") in
  let result := handleLoginCmd context user env w in
  match http env ROpaque POST loginUrl NoBody with
  | Throw e =>
      result = (Throw e, after w (kv w) [Http POST loginUrl NoBody])
  | Ok _ =>
      snd result
      = after w (kv w) [Http POST loginUrl NoBody; Http GET lockUrl NoBody]
      /\ match http env RLock GET lockUrl NoBody with
         | Throw e => fst result = Throw e
         | Ok _ => exists reply, fst result = Ok reply
         end
  end.
Proof.
  intros R. cbv zeta.
  remember (handleLoginCmd context user env w) as result eqn:E.
  unfold handleLoginCmd in E. unfold bind at 1 in E. rewrite (R w) in E.
  cbn [TargetUserId.error TargetUserId.userId truthy_str] in E.
  unfold service.login, service.getLock, bind, ret, request, record in E.
  simpl in E. rewrite <- app_assoc in E.
  destruct (http env ROpaque POST _ NoBody); [|subst result; reflexivity].
  destruct (http env RLock GET _ NoBody).
  - destruct (truthy_str user); subst result; split; eauto.
  - subst result. split; reflexivity.
Qed.

Lemma login_then_door_password_witness :
  let env := Sample.env 1736935200000 false Sample.down in
  resolvesTo Sample.context None env (Some "10001")
  /\ handleLoginCmd Sample.context None env Sample.world0
     = (Throw Sample.rejected,
        {| kv := ∅;
           trace :=
             [Http POST "https://neo.example/api/users/QQ:10001/login" NoBody]
        |}).
Proof.
  cbv zeta.
  assert (R : resolvesTo Sample.context None
                (Sample.env 1736935200000 false Sample.down) (Some "10001")).
  { intros w. reflexivity. }
  split; [exact R|].
  exact (login_then_door_password Sample.context None (Some "10001")
           (Sample.env 1736935200000 false Sample.down) Sample.world0 R).
Defined.

(** X9: without a session and without an explicit target, each of the nine
    commands, and [lock], fails before anything is requested or stored: the
    registered action replies with the fixed failure message, carries no
    quote marker and leaves the world as it was. *)
Theorem no_session_fails_closed (host : Host) (config : Config.t)
    (cmd : Command) (user amount : JsStr) (env : Env) (w : World) :
  truthy_str user = false ->
  let argv := {| Argv.session := None |} in
  apply host config cmd argv (user, amount) env w
  = (Ok "操作失败，发生了未知错误。", w)
  /\ createAction host config (fun context (_ : unit) => handleLockCmd context)
       argv tt env w
     = (Ok "操作失败，发生了未知错误。", w).
Proof.
  intros Huser. cbv zeta. split.
  - unfold apply, createAction, handleAction, bind, try_catch.
    cbn [Argv.session].
    rewrite (handler_thrown host cmd _ user amount env w TypeError)
      by (by apply getTargetUserId_no_session).
    reflexivity.
  - reflexivity.
Qed.

Lemma no_session_fails_closed_witness :
  truthy_str None = false
  /\ apply Utc.host Sample.config cmd_wallet {| Argv.session := None |}
       (None, None) (Sample.env 1736935200000 true Sample.up) Sample.world0
     = (Ok "操作失败，发生了未知错误。", Sample.world0).
Proof.
  split; [reflexivity|].
  exact (proj1 (no_session_fails_closed Utc.host Sample.config cmd_wallet
                  None None (Sample.env 1736935200000 true Sample.up)
                  Sample.world0 eq_refl)).
Defined.

(** The requests of [add], [del] and [overwrite] for a resolved target. *)
Lemma adjustments_resolved (context : ActionContext.t) (user amount U : JsStr)
    (env : Env) (w : World) :
  resolvesTo context user env U ->
  let walletUrl :=
    service.endpoint context ("/users/QQ:" +:+ show_str U +:+ "/wallet") in
  let overwriteUrl :=
    service.endpoint context
      ("/users/QQ:" +:+ show_str U +:+ "/billing-overwrite") in
  let parsed := ParseInt (show_str amount) in
  if truthy_str amount then
    snd (handleWalletAdd context user amount env w)
    = after w (kv w) [Http POST walletUrl (WalletBody parsed "管理员添加")]
    /\ snd (handleWalletDeduct context user amount env w)
       = after w (kv w)
           [Http POST walletUrl (WalletBody (Neg parsed) "管理员扣除")]
    /\ snd (handleCostOverwrite context user amount env w)
       = after w (kv w) [Http POST overwriteUrl (CostBody parsed)]
  else
    handleWalletAdd context user amount env w = (Ok "请输入数量", w)
    /\ handleWalletDeduct context user amount env w = (Ok "请输入数量", w)
    /\ handleCostOverwrite context user amount env w = (Ok "请输入数量", w).
Proof.
  intros R. cbv zeta.
  remember (handleWalletAdd context user amount env w) as added eqn:Ea.
  remember (handleWalletDeduct context user amount env w) as deducted eqn:Ed.
  remember (handleCostOverwrite context user amount env w) as overwritten
    eqn:Eo.
  unfold handleWalletAdd in Ea. unfold handleWalletDeduct in Ed.
  unfold handleCostOverwrite in Eo.
  unfold bind at 1 in Ea. unfold bind at 1 in Ed. unfold bind at 1 in Eo.
  rewrite (R w) in Ea, Ed, Eo.
  cbn [TargetUserId.error TargetUserId.userId truthy_str] in Ea, Ed, Eo.
  destruct (truthy_str amount); cbn [negb] in Ea, Ed, Eo;
    [|subst; repeat split].
  unfold service.walletAdd, service.walletDel, service.costOverwrite,
    bind, ret, request, record in Ea, Ed, Eo.
  simpl in Ea, Ed, Eo.
  destruct (http env RBalance POST _ (WalletBody (ParseInt _) _));
    destruct (http env RBalance POST _ (WalletBody (Neg _) _));
    destruct (http env ROpaque POST _ _); subst; repeat split.
Qed.

(** X10: the three adjustment commands, once the target [U] is resolved.
    Without an amount each replies with the prompt and requests nothing.
    With an amount, [add] and [del] post to the same wallet endpoint of [U],
    [del] with the negated amount, and [overwrite] posts the amount to the
    billing-overwrite endpoint of [U]; each issues that one request. *)
Theorem adjustment_requests (context : ActionContext.t) (user amount U : JsStr)
    (env : Env) (w : World) :
  resolvesTo context user env U ->
  let walletUrl :=
    service.endpoint context ("/users/QQ:" +:+ show_str U +:+ "/wallet") in
  let overwriteUrl :=
    service.endpoint context
      ("/users/QQ:" +:+ show_str U +:+ "/billing-overwrite") in
  let parsed := ParseInt (show_str amount) in
  if truthy_str amount then
    snd (handleWalletAdd context user amount env w)
    = after w (kv w) [Http POST walletUrl (WalletBody parsed "管理员添加")]
    /\ snd (handleWalletDeduct context user amount env w)
       = after w (kv w)
           [Http POST walletUrl (WalletBody (Neg parsed) "管理员扣除")]
    /\ snd (handleCostOverwrite context user amount env w)
       = after w (kv w) [Http POST overwriteUrl (CostBody parsed)]
  else
    handleWalletAdd context user amount env w = (Ok "请输入数量", w)
    /\ handleWalletDeduct context user amount env w = (Ok "请输入数量", w)
    /\ handleCostOverwrite context user amount env w = (Ok "请输入数量", w).
Proof. exact (adjustments_resolved context user amount U env w). Qed.

Lemma adjustment_requests_witness :
  let env := Sample.env 1736935200000 true Sample.up in
  resolvesTo Sample2.adminContext (Some "onebot:10001") env (Some "10001")
  /\ trace (snd (handleWalletDeduct Sample2.adminContext (Some "onebot:10001")
                   (Some "15") env Sample.world0))
     = [Http POST "https://neo.example/api/users/QQ:10001/wallet"
          (WalletBody (Neg (ParseInt "15")) "管理员扣除")].
Proof.
  cbv zeta.
  assert (R : resolvesTo Sample2.adminContext (Some "onebot:10001")
                (Sample.env 1736935200000 true Sample.up) (Some "10001")).
  { intros w. reflexivity. }
  split; [exact R|].
  pose proof (adjustment_requests Sample2.adminContext (Some "onebot:10001")
                (Some "15") (Some "10001")
                (Sample.env 1736935200000 true Sample.up) Sample.world0 R)
    as H.
  cbv zeta in H. cbn [truthy_str String.eqb negb] in H.
  destruct H as (_ & H & _). rewrite H. reflexivity.
Defined.

(** X11: the admin check guards explicit targets only.  Called without a
    target, by a caller with a session, [add], [del] and [overwrite] act on
    the caller's own account and issue their request whatever the permission
    check would have answered. *)
Theorem adjustment_without_target_is_unchecked (context : ActionContext.t)
    (session : Session.t) (user amount : JsStr) (env : Env) (w : World) :
  truthy_str user = false ->
  truthy_str amount = true ->
  ActionContext.session context = Some session ->
  let caller := show_str (Session.userId session) in
  let walletUrl :=
    service.endpoint context ("/users/QQ:" +:+ caller +:+ "/wallet") in
  let overwriteUrl :=
    service.endpoint context
      ("/users/QQ:" +:+ caller +:+ "/billing-overwrite") in
  let parsed := ParseInt (show_str amount) in
  trace (snd (handleWalletAdd context user amount env w))
  = (trace w ++ [Http POST walletUrl (WalletBody parsed "管理员添加")])%list
  /\ trace (snd (handleWalletDeduct context user amount env w))
     = (trace w
        ++ [Http POST walletUrl (WalletBody (Neg parsed) "管理员扣除")])%list
  /\ trace (snd (handleCostOverwrite context user amount env w))
     = (trace w ++ [Http POST overwriteUrl (CostBody parsed)])%list.
Proof.
  intros Huser Hamount Hs. cbv zeta.
  pose proof (resolvesTo_self context user env session Huser Hs) as R.
  pose proof (adjustments_resolved context user amount
                (Session.userId session) env w R) as H.
  cbv zeta in H. rewrite Hamount in H. destruct H as (H1 & H2 & H3).
  rewrite H1, H2, H3. repeat split.
Qed.

Lemma adjustment_without_target_is_unchecked_witness :
  let refusing := Sample.env 1736935200000 false Sample.up in
  (truthy_str None = false /\ truthy_str (Some "50") = true)
  /\ trace (snd (handleWalletAdd Sample.context None (Some "50") refusing
                   Sample.world0))
     = [Http POST "https://neo.example/api/users/QQ:10001/wallet"
          (WalletBody (ParseInt "50") "管理员添加")].
Proof.
  cbv zeta. split; [split; reflexivity|].
  exact (proj1 (adjustment_without_target_is_unchecked Sample.context
                  Sample.session None (Some "50")
                  (Sample.env 1736935200000 false Sample.up) Sample.world0
                  eq_refl eq_refl eq_refl)).
Defined.

(** ** Reports that can fail *)

Lemma mapM_itemLine_result host (l : list UserAsset.t) env w :
  (Exists (fun a => UserAsset.asset a = None) l
   /\ fst (mapM (itemLine host) l env w) = Throw TypeError)
  \/ (Forall (fun a => is_Some (UserAsset.asset a)) l
      /\ exists lines,
           fst (mapM (itemLine host) l env w) = Ok lines
           /\ length lines = length l).
Proof.
  induction l as [|x l IH].
  - right. split; [constructor|]. exists []. split; reflexivity.
  - simpl. unfold bind at 1. unfold itemLine at 1 3.
    destruct (UserAsset.asset x) as [def|] eqn:Hdef.
    + assert (Hstep : forall line,
        (Exists (fun a => UserAsset.asset a = None) (x :: l)
         /\ fst (bind (mapM (itemLine host) l)
                   (fun ys => ret (line :: ys)) env w) = Throw TypeError)
        \/ (Forall (fun a => is_Some (UserAsset.asset a)) (x :: l)
            /\ exists lines,
                 fst (bind (mapM (itemLine host) l)
                        (fun ys => ret (line :: ys)) env w) = Ok lines
                 /\ length lines = S (length l))).
      { intros line. unfold bind, ret.
        destruct IH as [[Hex E]|[Hall (lines & E & Hlen)]];
          destruct (mapM (itemLine host) l env w) as [[ys|e] w'];
          simpl in E; try discriminate.
        - left. split; [by apply Exists_cons_tl | by rewrite E].
        - right. split; [constructor; [rewrite Hdef; eauto | exact Hall]|].
          injection E as ->. exists (line :: lines). simpl. auto. }
      destruct (UserAsset.expireAt x); apply Hstep.
    + left. split; [by apply Exists_cons_hd | reflexivity].
Qed.

(** X12: the items report needs the definition of every item.  When the
    remote list holds an item whose [asset] is [null] the handler throws a
    [TypeError], so one such item fails the whole report; when every item has
    its definition (an empty list included) the handler replies.  Either way
    the only event is the request for the assets. *)
Theorem items_need_definitions (host : Host) (context : ActionContext.t)
    (user U : JsStr) (env : Env) (w : World) (userAssets : list UserAsset.t) :
  resolvesTo context user env U ->
  let url :=
    service.endpoint context
      ("/users/QQ:" +:+ show_str U +:+ "/assets?details=true") in
  http env RAssets GET url NoBody = Ok userAssets ->
  let result := handleItemsCmd host context user env w in
  snd result = after w (kv w) [Http GET url NoBody]
  /\ (Exists (fun a => UserAsset.asset a = None) userAssets ->
      fst result = Throw TypeError)
  /\ (Forall (fun a => is_Some (UserAsset.asset a)) userAssets ->
      exists reply, fst result = Ok reply).
Proof.
  intros R url Hhttp. cbv zeta.
  remember (handleItemsCmd host context user env w) as result eqn:E.
  unfold handleItemsCmd in E. unfold bind at 1 in E. rewrite (R w) in E.
  cbn [TargetUserId.error TargetUserId.userId truthy_str] in E.
  unfold service.assets in E. unfold bind at 1 in E.
  unfold request, record in E. fold url in E. rewrite Hhttp in E.
  destruct userAssets as [|x l].
  - simpl in E. subst result. split; [reflexivity|]. split.
    + intros H. inversion H.
    + intros _. eauto.
  - change (length (x :: l) =? 0)%nat with false in E. cbv iota in E.
    unfold bind in E.
    match type of E with
    | context [mapM (itemLine host) (x :: l) env ?w1] =>
        pose proof (mapM_itemLine_world host (x :: l) env w1) as Hw;
        pose proof (mapM_itemLine_result host (x :: l) env w1) as Hr;
        destruct (mapM (itemLine host) (x :: l) env w1) as [[lines|e] w2]
    end; simpl in Hw; subst w2; subst result; cbn [fst snd].
    + split; [reflexivity|]. split; [|unfold ret; simpl; eauto].
      intros Hex. destruct Hr as [[_ Hr]|[Hall _]]; [discriminate Hr|].
      exfalso. rewrite List.Exists_exists in Hex.
      destruct Hex as (a & Ha & Hnone).
      rewrite List.Forall_forall in Hall. specialize (Hall a Ha).
      rewrite Hnone in Hall. by destruct Hall.
    + split; [reflexivity|]. split.
      * intros _. destruct Hr as [[_ Hr]|[_ (lines & Hr & _)]];
          simpl in Hr; congruence.
      * intros Hall.
        destruct Hr as [[Hex _]|[_ (lines & Hr & _)]];
          [|discriminate Hr].
        exfalso. rewrite List.Exists_exists in Hex.
        destruct Hex as (a & Ha & Hnone).
        rewrite List.Forall_forall in Hall. specialize (Hall a Ha).
        rewrite Hnone in Hall. by destruct Hall.
Qed.

Lemma items_need_definitions_witness :
  let env :=
    Sample.env 1736935200000 false
      (Sample2.holding [Sample2.coupon; Sample.freeAsset 8 1 None]) in
  let result := handleItemsCmd Utc.host Sample.context None env Sample.world0 in
  resolvesTo Sample.context None env (Some "10001")
  /\ fst result = Throw TypeError
  /\ trace (snd result)
     = [Http GET "https://neo.example/api/users/QQ:10001/assets?details=true"
          NoBody].
Proof.
  cbv zeta.
  assert (R : resolvesTo Sample.context None
                (Sample.env 1736935200000 false
                   (Sample2.holding [Sample2.coupon; Sample.freeAsset 8 1 None]))
                (Some "10001")).
  { intros w. reflexivity. }
  split; [exact R|].
  destruct (items_need_definitions Utc.host Sample.context None (Some "10001")
              _ Sample.world0 [Sample2.coupon; Sample.freeAsset 8 1 None]
              R eq_refl) as (Hw & Hthrow & _).
  split; [|rewrite Hw; reflexivity].
  apply Hthrow. apply Exists_cons_tl, Exists_cons_hd. reflexivity.
Defined.

Lemma mapM_userReport host (l : list LoggedInUser.t) env w :
  snd (mapM (userReport host) l env w) = w
  /\ ((Exists (fun u => LoggedInUser.sessions u = []) l
       /\ fst (mapM (userReport host) l env w) = Throw TypeError)
      \/ (Forall (fun u => LoggedInUser.sessions u <> []) l
          /\ exists reports,
               fst (mapM (userReport host) l env w) = Ok reports
               /\ length reports = length l)).
Proof.
  induction l as [|x l [IHw IH]].
  - split; [reflexivity|]. right. split; [constructor|]. exists [].
    split; reflexivity.
  - remember (mapM (userReport host) (x :: l) env w) as r eqn:E.
    simpl in E. unfold bind at 1 in E. unfold userReport at 1 in E.
    destruct (LoggedInUser.sessions x) as [|session rest] eqn:Hs;
      simpl in E.
    + subst r. split; [reflexivity|]. left.
      split; [by apply Exists_cons_hd | reflexivity].
    + unfold bind, ret in E.
      destruct (mapM (userReport host) l env w) as [[ys|e] w'];
        simpl in IHw; subst w'; subst r; (split; [reflexivity|]).
      * right. destruct IH as [[_ IH]|[Hall (reports & IH & Hlen)]];
          [discriminate IH|].
        split; [constructor; [rewrite Hs; discriminate | exact Hall]|].
        simpl in IH. injection IH as ->. eexists.
        split; [reflexivity|]. simpl. auto.
      * left. destruct IH as [[Hex IH]|[_ (reports & IH & _)]];
          [|discriminate IH].
        simpl in IH. injection IH as ->.
        split; [by apply Exists_cons_tl | reflexivity].
Qed.

(** X13: the occupants list needs a session of every listed user.  The
    report of a user reads [user.sessions[0]]: when some listed user has no
    session the handler throws a [TypeError]; when every one has a session
    it replies; an empty list gets the fixed reply.  The handler adds no
    effect of its own to those of the remote call. *)
Theorem list_needs_sessions (host : Host)
    (service_list : ActionContext.t -> M (list LoggedInUser.t))
    (context : ActionContext.t) (env : Env) (w w1 : World)
    (users : list LoggedInUser.t) :
  service_list context env w = (Ok users, w1) ->
  let result := handleListCmd host service_list context env w in
  snd result = w1
  /\ (users = [] -> fst result = Ok "窝里目前没有玩家呢")
  /\ (Exists (fun u => LoggedInUser.sessions u = []) users ->
      fst result = Throw TypeError)
  /\ (Forall (fun u => LoggedInUser.sessions u <> []) users ->
      exists reply, fst result = Ok reply).
Proof.
  intros Hlist. cbv zeta.
  remember (handleListCmd host service_list context env w) as result eqn:E.
  unfold handleListCmd in E. unfold bind at 1 in E. rewrite Hlist in E.
  destruct users as [|x l].
  - simpl in E. subst result. repeat split; eauto.
    intros H. inversion H.
  - change (length (x :: l) =? 0)%nat with false in E. cbv iota in E.
    unfold bind in E.
    destruct (mapM_userReport host (x :: l) env w1) as [Hw Hr].
    destruct (mapM (userReport host) (x :: l) env w1) as [[reports|e] w2];
      simpl in Hw; subst w2; subst result; cbn [fst snd].
    + split; [reflexivity|]. split; [discriminate|]. split.
      * intros Hex. destruct Hr as [[_ Hr]|[Hall _]]; [discriminate Hr|].
        exfalso. rewrite List.Exists_exists in Hex.
        destruct Hex as (u & Hu & Hnone).
        rewrite List.Forall_forall in Hall. exact (Hall u Hu Hnone).
      * intros _. unfold ret. simpl. eauto.
    + split; [reflexivity|]. split; [discriminate|]. split.
      * intros _. destruct Hr as [[_ Hr]|[_ (reports & Hr & _)]];
          simpl in Hr; congruence.
      * intros Hall.
        destruct Hr as [[Hex _]|[_ (reports & Hr & _)]];
          [|discriminate Hr].
        exfalso. rewrite List.Exists_exists in Hex.
        destruct Hex as (u & Hu & Hnone).
        rewrite List.Forall_forall in Hall. exact (Hall u Hu Hnone).
Qed.

Lemma list_needs_sessions_witness :
  let users :=
    [ Sample2.user ["10001"] [Sample.jan15]; Sample2.user [] [] ] in
  let result :=
    handleListCmd Utc.host (Sample2.listing users) Sample.context
      (Sample.env 1736935200000 false Sample.up) Sample.world0 in
  Sample2.listing users Sample.context
    (Sample.env 1736935200000 false Sample.up) Sample.world0
  = (Ok users, Sample.world0)
  /\ fst result = Throw TypeError.
Proof.
  cbv zeta. split; [reflexivity|].
  destruct (list_needs_sessions Utc.host
              (Sample2.listing
                 [ Sample2.user ["10001"] [Sample.jan15]; Sample2.user [] [] ])
              Sample.context (Sample.env 1736935200000 false Sample.up)
              Sample.world0 Sample.world0 _ eq_refl) as (_ & _ & Hthrow & _).
  apply Hthrow. apply Exists_cons_tl, Exists_cons_hd. reflexivity.
Defined.

(** The report of a user names the first QQ bind, or the anonymous player. *)
Example list_example :
  fst (handleListCmd Utc.host
         (Sample2.listing
            [ Sample2.user ["10001"; "10002"] [Sample.jan15];
              Sample2.user [] [Sample.feb10] ])
         Sample.context (Sample.env 1736935200000 false Sample.up)
         Sample.world0)
  = Ok (join LF [
      "窝里目前共有 2 人"; "";
      "玩家: 10001"; "入场时间: 2025/01/15 00:00:00"; "";
      "玩家: 匿名玩家"; "入场时间: 2025/02/10 00:00:00" ]).
Proof. vm_compute. reflexivity. Qed.

(** ** Redeemed items *)

(** X14: the day count of a redeemed pass.  An item is listed with a
    [(N天)] suffix exactly when it is of type [PASS] and its duration is at
    least one whole day, 86400000 ms; [N] is the number of whole days, part
    days dropped.  A pass of shorter, zero, negative or absent duration and
    an item of any other type are listed under their bare name. *)
Theorem redeem_pass_days (item : RedeemItem.t) :
  redeemItemName item
  = match RedeemItem.durationMs item with
    | Some d =>
        if String.eqb (RedeemItem.assetType item) "PASS" && (86400000 <=? d)
        then RedeemItem.name item +:+ " (" +:+ show_num (d / 86400000)
               +:+ "天)"
        else RedeemItem.name item
    | None => RedeemItem.name item
    end.
Proof.
  unfold redeemItemName. change (1000 * 60 * 60 * 24) with 86400000.
  destruct (RedeemItem.durationMs item) as [d|]; simpl;
    [|by rewrite andb_false_r].
  destruct (String.eqb (RedeemItem.assetType item) "PASS"); simpl;
    [|reflexivity].
  destruct (Z.leb_spec 86400000 d) as [Hle|Hlt].
  - destruct (Z.eqb_spec d 0); [lia|]. simpl.
    assert (1 <= d / 86400000) by (apply Z.div_le_lower_bound; lia).
    destruct (Z.ltb_spec 0 (d / 86400000)); [reflexivity | lia].
  - destruct (Z.eqb_spec d 0); [reflexivity|]. simpl.
    assert (d / 86400000 < 1) by (apply Z.div_lt_upper_bound; lia).
    destruct (Z.ltb_spec 0 (d / 86400000)); [lia | reflexivity].
Qed.

Example redeem_pass_days_examples :
  redeemItemName (Sample2.pass (Some 2592000000)) = "月卡 (30天)"
  /\ redeemItemName (Sample2.pass (Some 172799999)) = "月卡 (1天)"
  /\ redeemItemName (Sample2.pass (Some 86399999)) = "月卡"
  /\ redeemItemName (Sample2.pass None) = "月卡".
Proof. repeat split. Qed.

Lemma forEach_pushRedeemItem items message :
  fold_left pushRedeemItem items message
  = (message
     ++ map (fun item =>
               "- " +:+ redeemItemName item +:+ " x"
                 +:+ show_num (RedeemItem.count item)) items)%list.
Proof.
  revert message. induction items as [|item items IH]; intros message; simpl.
  - symmetry. apply app_nil_r.
  - rewrite IH. unfold pushRedeemItem, push. rewrite <- app_assoc.
    reflexivity.
Qed.

(** X15: [redeem] acts on the caller and asks for the code before calling
    the remote API.  For a caller with a session: without a code the reply
    is the prompt and the service is not run; with a code the service is run
    for the caller's id, and its answer is listed one line per granted item,
    in order, under the heading, or acknowledged by the fixed reply when it
    is empty; a failure of the service is thrown. *)
Theorem redeem_reply
    (service_redeem :
       ActionContext.t -> string -> JsStr -> M (list RedeemItem.t))
    (context : ActionContext.t) (session : Session.t) (code : JsStr)
    (env : Env) (w : World) :
  ActionContext.session context = Some session ->
  let result := handleRedeem service_redeem context code env w in
  if truthy_str code then
    match service_redeem context (show_str code) (Session.userId session)
            env w with
    | (Throw e, w1) => result = (Throw e, w1)
    | (Ok [], w1) => result = (Ok "兑换成功，但没有获得任何物品。", w1)
    | (Ok (item :: items), w1) =>
        result
        = (Ok (join LF
                 ("✅ 兑换成功！您获得了以下物品："
                  :: map (fun item =>
                            "- " +:+ redeemItemName item +:+ " x"
                              +:+ show_num (RedeemItem.count item))
                       (item :: items))),
           w1)
    end
  else result = (Ok "请输入兑换码", w).
Proof.
  intros Hs. cbv zeta.
  remember (handleRedeem service_redeem context code env w) as result eqn:E.
  unfold handleRedeem in E. unfold bind at 1 in E.
  rewrite (resolvesTo_self context None env session eq_refl Hs w) in E.
  cbn [TargetUserId.error TargetUserId.userId truthy_str] in E.
  destruct (truthy_str code); cbn [negb] in E; [|exact E].
  unfold bind in E.
  destruct (service_redeem context (show_str code) (Session.userId session)
              env w) as [[[|item items]|e] w1]; try exact E.
  change (length (item :: items) =? 0)%nat with false in E. cbv iota in E.
  rewrite forEach_pushRedeemItem in E. exact E.
Qed.

Lemma redeem_reply_witness :
  let granting : ActionContext.t -> string -> JsStr -> M (list RedeemItem.t) :=
    fun _ _ _ => ret [Sample2.pass (Some 2592000000)] in
  ActionContext.session Sample.context = Some Sample.session
  /\ handleRedeem granting Sample.context (Some "NEO-2025")
       (Sample.env 1736935200000 false Sample.up) Sample.world0
     = (Ok (join LF ["✅ 兑换成功！您获得了以下物品："; "- 月卡 (30天) x1"]),
        Sample.world0).
Proof.
  cbv zeta. split; [reflexivity|].
  exact (redeem_reply (fun _ _ _ => ret [Sample2.pass (Some 2592000000)])
           Sample.context Sample.session (Some "NEO-2025")
           (Sample.env 1736935200000 false Sample.up) Sample.world0 eq_refl).
Defined.

(** ** Rendering *)

Lemma filter_all_negative (segments : list BillingSegment.t) :
  Forall (fun seg => BillingSegment.cost seg < 0) segments ->
  filter (fun seg => 0 <= BillingSegment.cost seg) segments = [].
Proof.
  induction 1 as [|seg segments Hneg _ IH]; [reflexivity|].
  rewrite filter_cons_False by lia. exact IH.
Qed.

(** X16: a preview whose segments all have a negative cost shows the
    segments heading with nothing under it: no entry is rendered, and the
    placeholder line is kept for an empty segment list. *)
Theorem negative_segments_render_nothing (host : Host)
    (message : list string) (segments : list BillingSegment.t) :
  segments <> [] ->
  Forall (fun seg => BillingSegment.cost seg < 0) segments ->
  pushSegments host message segments = message
  /\ pushSegments host message [] = (message ++ ["  (无)"])%list.
Proof.
  intros Hne Hneg. split; [|reflexivity].
  unfold pushSegments. destruct segments as [|seg l]; [congruence|].
  change (0 <? length (seg :: l))%nat with true. cbv iota.
  rewrite forEach_pushSegment, (filter_all_negative _ Hneg). apply app_nil_r.
Qed.

Lemma negative_segments_render_nothing_witness :
  let segments := [Sample.segment "调整" (-5); Sample.segment "退款" (-1)] in
  (segments <> []
   /\ Forall (fun seg => BillingSegment.cost seg < 0) segments)
  /\ pushSegments Utc.host ["计费区间:"] segments = ["计费区间:"].
Proof.
  cbv zeta.
  assert (Hneg : Forall (fun seg => BillingSegment.cost seg < 0)
                   [Sample.segment "调整" (-5); Sample.segment "退款" (-1)]).
  { repeat constructor. }
  split; [split; [discriminate | exact Hneg]|].
  exact (proj1 (negative_segments_render_nothing Utc.host ["计费区间:"]
                  [Sample.segment "调整" (-5); Sample.segment "退款" (-1)]
                  ltac:(discriminate) Hneg)).
Defined.

Lemma length_append (s t : string) :
  String.length (s +:+ t) = (String.length s + String.length t)%nat.
Proof.
  induction s as [|a s IH]; [reflexivity|]. rewrite app_cons. simpl.
  by rewrite IH.
Qed.

Lemma two_digits (n : Z) :
  0 <= n < 100 -> String.length (padStart2 (show_num n)) = 2%nat.
Proof.
  intros Hn.
  assert (H : forallb
                (fun k => Nat.eqb
                            (String.length (padStart2 (show_num (Z.of_nat k))))
                            2)
                (seq 0 100) = true) by (vm_compute; reflexivity).
  rewrite forallb_forall in H. specialize (H (Z.to_nat n)).
  rewrite Z2Nat.id in H by lia. apply Nat.eqb_eq, H, in_seq. lia.
Qed.

Lemma four_digits (n : Z) :
  1000 <= n <= 9999 -> String.length (show_num n) = 4%nat.
Proof.
  intros Hn.
  assert (H : forallb
                (fun k => Nat.eqb
                            (String.length (show_num (1000 + Z.of_nat k))) 4)
                (seq 0 (90 * 100)) = true) by (vm_compute; reflexivity).
  rewrite forallb_forall in H. specialize (H (Z.to_nat (n - 1000))).
  rewrite Z2Nat.id in H by lia.
  replace (1000 + (n - 1000)) with n in H by lia.
  apply Nat.eqb_eq, H, in_seq. lia.
Qed.

(** X17: a timestamp is rendered in a fixed width.  When the host's calendar
    fields are in their ranges (a four-digit year, month index 0 to 11, day
    1 to 31, hour 0 to 23, minute and second 0 to 59) the text
    [YYYY/MM/DD HH:MM:SS] has exactly 19 characters: every field but the year
    is padded to two digits. *)
Theorem formatDateTime_width (host : Host) (date : JsDate) :
  1000 <= getFullYear host date <= 9999 ->
  0 <= getMonth host date <= 11 ->
  1 <= getDate host date <= 31 ->
  0 <= getHours host date <= 23 ->
  0 <= getMinutes host date <= 59 ->
  0 <= getSeconds host date <= 59 ->
  String.length (formatDateTime host (Some date)) = 19%nat.
Proof.
  intros Hy Hm Hd Hh Hmin Hs. unfold formatDateTime.
  rewrite !length_append, (four_digits _ Hy).
  rewrite !two_digits by lia. reflexivity.
Qed.

Lemma formatDateTime_width_witness :
  let date := 1738384445000 in
  (1000 <= getFullYear Utc.host date <= 9999
   /\ 0 <= getMonth Utc.host date <= 11
   /\ 1 <= getDate Utc.host date <= 31)
  /\ formatDateTime Utc.host (Some date) = "2025/02/01 04:34:05"
  /\ String.length (formatDateTime Utc.host (Some date)) = 19%nat.
Proof.
  cbv zeta. split; [vm_compute; intuition discriminate|].
  split; [reflexivity|].
  apply (formatDateTime_width Utc.host 1738384445000);
    vm_compute; intuition discriminate.
Defined.


